(** * lnd: the RevokeAndAck wire message and the omni message dispatcher

    A shallow embedding of
      - [lnwire.RevokeAndAck] with its [Decode], [Encode], [MaxPayloadLength]
        and [Validate] methods, and
      - [BreakChannel], [OmniHandler] and [LNDCReceiver] of package main
        (omnihandler.go),
    followed by the properties established about them.

    Conventions.  A Go [byte] is a [Byte.byte]; a byte slice or array is a
    [list byte] (a fixed-size array carries its length as a well-formedness
    condition); [uint32] and [big.Int] values are in [Z], with the truncation
    of Go's integer conversions written out.  A call that can fail returns its
    Go [error] as an [option error] ([None] is [nil]); a call that can panic
    returns an [outcome]. *)

From Stdlib Require Import String.
From Stdlib.Strings Require Import Byte.
From Stdlib Require Import ZArith List Lia Bool.
Import ListNotations.

Local Open Scope string_scope.
Local Open Scope list_scope.
Local Open Scope Z_scope.

(* ================================================================== *)
(** * Bytes and byte order *)

(** [uint64(b)] for a byte [b]. *)
Definition byte_to_Z (b : byte) : Z := Z.of_N (Byte.to_N b).

(** [byte(z)]: Go's conversion keeps the low eight bits. *)
Definition byte_of_Z (z : Z) : byte :=
  match Byte.of_N (Z.to_N (z mod 256)) with
  | Some b => b
  | None => x00
  end.

(** [copy(dst, src)] for a destination of [length dst] bytes: the first
    [min (len dst) (len src)] bytes are overwritten, the others are kept. *)
Definition copy (dst src : list byte) : list byte :=
  firstn (length dst) src ++ skipn (length src) dst.

(** [make([]byte, n)], also the zero value of [[n]byte]. *)
Definition zeroes (n : nat) : list byte := repeat x00 n.

(** [binary.BigEndian.Uint32]. *)
Definition BigEndian_Uint32 (b : list byte) : Z :=
  match b with
  | [b0; b1; b2; b3] =>
      Z.lor (Z.lor (Z.lor (byte_to_Z b3) (Z.shiftl (byte_to_Z b2) 8))
                   (Z.shiftl (byte_to_Z b1) 16))
            (Z.shiftl (byte_to_Z b0) 24)
  | _ => 0
  end.

(** [binary.BigEndian.PutUint32] into a fresh [[4]byte]. *)
Definition BigEndian_PutUint32 (v : Z) : list byte :=
  [ byte_of_Z (Z.shiftr v 24); byte_of_Z (Z.shiftr v 16);
    byte_of_Z (Z.shiftr v 8); byte_of_Z v ].

(** The [n] low bytes of [z], most significant first. *)
Fixpoint be_fixed (n : nat) (z : Z) : list byte :=
  match n with
  | O => []
  | S n' => be_fixed n' (Z.shiftr z 8) ++ [byte_of_Z z]
  end.

(** [new(big.Int).SetBytes(bs)]: the big-endian unsigned value of [bs]. *)
Definition SetBytes (bs : list byte) : Z :=
  fold_left (fun acc b => acc * 256 + byte_to_Z b) bs 0.

(** Number of bytes of the minimal big-endian form of [z >= 0]. *)
Definition byte_len (z : Z) : nat :=
  if z =? 0 then O else Z.to_nat (Z.log2 z / 8 + 1).

(** [z.Bytes()] of a [big.Int]: the absolute value, big-endian, without
    leading zero bytes. *)
Definition Bytes (z : Z) : list byte := be_fixed (byte_len (Z.abs z)) (Z.abs z).

(* ================================================================== *)
(** * Errors and the in-memory reader and writer *)

Inductive error : Type :=
| io_EOF                      (* io.EOF *)
| io_ErrUnexpectedEOF         (* io.ErrUnexpectedEOF *)
| ErrPubKey (reason : string) (* an error of btcec.ParsePubKey *)
| ErrNilPubKey                (* a nil *btcec.PublicKey cannot be written *)
| ErrOther (reason : string). (* an error of a collaborator outside this model *)

(** An [io.Reader] over a finite in-memory stream: the bytes not yet read. *)
Definition Reader : Type := list byte.

(** An [io.Writer] that appends to a buffer: the bytes written so far. *)
Definition Writer : Type := list byte.

(** [io.ReadFull(r, buf)]: reads exactly [len(buf)] bytes.  It returns
    [io.EOF] when nothing could be read, [io.ErrUnexpectedEOF] after a short
    read (the bytes that were read are in [buf] all the same).  The result is
    the error, the buffer and the reader after the call. *)
Definition ReadFull (r : Reader) (buf : list byte)
  : option error * list byte * Reader :=
  match buf with
  | [] => (None, buf, r)
  | _ :: _ =>
      match r with
      | [] => (Some io_EOF, buf, r)
      | _ :: _ =>
          if (length r <? length buf)%nat
          then (Some io_ErrUnexpectedEOF, copy buf r, [])
          else (None, firstn (length buf) r, skipn (length buf) r)
      end
  end.

(** [w.Write(p)] on the buffer. *)
Definition Write (w : Writer) (p : list byte) : option error * Writer :=
  (None, w ++ p).

(* ================================================================== *)
(** * btcec: compressed secp256k1 public keys

    Package btcec (github.com/roasbeef/btcd/btcec) is a dependency of the
    repository.  The two functions the codec calls, [ParsePubKey] on a 33-byte
    string and [SerializeCompressed], are written out here after that
    package. *)

Module btcec.

(** The field prime of secp256k1 and the curve constant: y^2 = x^3 + 7. *)
Definition P : Z := 2 ^ 256 - 2 ^ 32 - 977.
Definition B : Z := 7.

Definition PubKeyBytesLenCompressed : nat := 33.
Definition pubkeyCompressed : Z := 2.

(** [PublicKey]: an affine point ([big.Int] coordinates). *)
Record PublicKey : Type := { X : Z; Y : Z }.

(** [new(big.Int).Exp(b, e, m)] for a positive exponent, by squaring. *)
Fixpoint Exp_pos (b : Z) (e : positive) (m : Z) : Z :=
  match e with
  | xH => b mod m
  | xO e' => let r := Exp_pos b e' m in (r * r) mod m
  | xI e' => let r := Exp_pos b e' m in ((r * r) mod m * b) mod m
  end.

Definition Exp (b e m : Z) : Z :=
  match e with
  | Zpos p => Exp_pos b p m
  | _ => 1 mod m
  end.

(** [curve.QPlus1Div4()]: (P + 1) / 4. *)
Definition QPlus1Div4 : Z := (P + 1) / 4.

Definition isOdd (a : Z) : bool := Z.odd a.

(** [decompressPoint]: the root of x^3 + B with the requested parity. *)
Definition decompressPoint (x : Z) (ybit : bool) : error + Z :=
  let x3 := x * x * x + B in
  let y := Exp x3 QPlus1Div4 P in
  let y := if Bool.eqb ybit (isOdd y) then y else P - y in
  if Bool.eqb ybit (isOdd y)
  then inr y
  else inl (ErrPubKey "ybit doesn't match oddness").

(** [curve.IsOnCurve(x, y)]. *)
Definition IsOnCurve (x y : Z) : bool :=
  (y * y) mod P =? (x * x * x + B) mod P.

(** [ParsePubKey(pubKeyStr, S256())], the branches a 33-byte string can
    take; the other lengths are rejected here as "invalid pub key length"
    (the 65-byte formats are never offered by the codec). *)
Definition ParsePubKey (pubKeyStr : list byte) : error + PublicKey :=
  match pubKeyStr with
  | [] => inl (ErrPubKey "pubkey string is empty")
  | f :: xs =>
      let ybit := Z.land (byte_to_Z f) 1 =? 1 in
      let format := Z.land (byte_to_Z f) 254 in
      if negb (length pubKeyStr =? PubKeyBytesLenCompressed)%nat
      then inl (ErrPubKey "invalid pub key length")
      else if negb (format =? pubkeyCompressed)
      then inl (ErrPubKey "invalid magic in compressed pubkey string")
      else
        let x := SetBytes xs in
        match decompressPoint x ybit with
        | inl e => inl e
        | inr y =>
            if P <=? x then inl (ErrPubKey "pubkey X parameter is >= to P")
            else if P <=? y then inl (ErrPubKey "pubkey Y parameter is >= to P")
            else if negb (IsOnCurve x y)
            then inl (ErrPubKey "pubkey isn't on secp256k1 curve")
            else inr {| X := x; Y := y |}
        end
  end.

(** [paddedAppend(size, dst, src)]. *)
Definition paddedAppend (size : nat) (dst src : list byte) : list byte :=
  dst ++ zeroes (size - length src) ++ src.

(** [p.SerializeCompressed()]. *)
Definition SerializeCompressed (p : PublicKey) : list byte :=
  let format := if isOdd (Y p) then Z.lor pubkeyCompressed 1
                else pubkeyCompressed in
  paddedAppend 32 [byte_of_Z format] (Bytes (X p)).

(** A well-formed key is one that [ParsePubKey] returns: a point of the
    curve, with coordinates below [P], in the form the parser builds. *)
Definition WellFormed (p : PublicKey) : Prop :=
  exists pubKeyStr, ParsePubKey pubKeyStr = inr p.

End btcec.

(* ================================================================== *)
(** * wire: outpoints (github.com/roasbeef/btcd/wire) *)

Module wire.

(** [wire.OutPoint]: [Hash] is a [chainhash.Hash], a [[32]byte]; [Index] is
    a [uint32]. *)
Record OutPoint : Type := { Hash : list byte; Index : Z }.

Definition wf_OutPoint (op : OutPoint) : Prop :=
  length (Hash op) = 32%nat /\ 0 <= Index op < 2 ^ 32.

End wire.

(* ================================================================== *)
(** * lnwire: the RevokeAndAck message (revoke_and_ack.go) *)

Module lnwire.

(** ** The element codec *)

Section Elements.

(** The struct whose fields the element pointers of a [readElements] call
    point into. *)
Variable T : Type.

(** The arguments [readElements] is called with, by their Go type: a
    pointer or a slice into the receiver is a setter (and, for the slice
    that is filled in place, a getter) of the field. *)
Inductive element : Type :=
| PtrOutPoint (set : wire.OutPoint -> T -> T)          (* *wire.OutPoint *)
| SliceBytes (get : T -> list byte)
             (set : list byte -> T -> T)               (* []byte *)
| PtrPtrPublicKey (set : option btcec.PublicKey -> T -> T).
                                                       (* **btcec.PublicKey *)

(** Modelled from the spec: [readElement] of lnwire (lnwire.go is not among
    the sources).  The widths are those of the fixed payload "36+32+33+32":
    an outpoint is its 32-byte hash followed by its index as a big-endian
    [uint32]; a byte slice is filled in place to its length; a public key
    is 33 bytes in compressed form, parsed by btcec. *)
Definition readElement (r : Reader) (e : element) (c : T)
  : option error * T * Reader :=
  match e with
  | PtrOutPoint set =>
      match ReadFull r (zeroes 32) with
      | (Some err, _, r1) => (Some err, c, r1)
      | (None, h, r1) =>
          match ReadFull r1 (zeroes 4) with
          | (Some err, _, r2) => (Some err, c, r2)
          | (None, idxBytes, r2) =>
              let index := BigEndian_Uint32 idxBytes in
              (None, set {| wire.Hash := h; wire.Index := index |} c, r2)
          end
      end
  | SliceBytes get set =>
      match ReadFull r (get c) with
      | (err, buf, r1) => (err, set buf c, r1)
      end
  | PtrPtrPublicKey set =>
      match ReadFull r (zeroes btcec.PubKeyBytesLenCompressed) with
      | (Some err, _, r1) => (Some err, c, r1)
      | (None, b, r1) =>
          match btcec.ParsePubKey b with
          | inl err => (Some err, c, r1)
          | inr pubKey => (None, set (Some pubKey) c, r1)
          end
      end
  end.

(** Modelled from the spec: [readElements] of lnwire (lnwire.go is not
    among the sources): the elements are read in the order given, and the
    first error is returned. *)
Fixpoint readElements (r : Reader) (elements : list element) (c : T)
  : option error * T * Reader :=
  match elements with
  | [] => (None, c, r)
  | e :: rest =>
      match readElement r e c with
      | (Some err, c', r') => (Some err, c', r')
      | (None, c', r') => readElements r' rest c'
      end
  end.

End Elements.

Arguments PtrOutPoint {T} set.
Arguments SliceBytes {T} get set.
Arguments PtrPtrPublicKey {T} set.
Arguments readElement {T} r e c.
Arguments readElements {T} r elements c.

(** The arguments [writeElements] is called with, by their Go type. *)
Inductive value : Type :=
| OutPointVal (op : wire.OutPoint)                 (* wire.OutPoint *)
| BytesVal (bs : list byte)                        (* []byte *)
| PublicKeyPtr (k : option btcec.PublicKey).       (* *btcec.PublicKey *)

(** Modelled from the spec: [writeElement] of lnwire (lnwire.go is not among
    the sources), the inverse of [readElement]: 32 bytes of hash and a
    big-endian [uint32] index for an outpoint, the bytes of a slice as they
    are, the 33-byte compressed form for a public key.  A nil key has no
    encoding and the write fails. *)
Definition writeElement (w : Writer) (e : value) : option error * Writer :=
  match e with
  | OutPointVal op =>
      let h := copy (zeroes 32) (wire.Hash op) in
      match Write w h with
      | (Some err, w1) => (Some err, w1)
      | (None, w1) => Write w1 (BigEndian_PutUint32 (wire.Index op))
      end
  | BytesVal bs => Write w bs
  | PublicKeyPtr None => (Some ErrNilPubKey, w)
  | PublicKeyPtr (Some k) =>
      let b := copy (zeroes 33) (btcec.SerializeCompressed k) in
      Write w b
  end.

(** Modelled from the spec: [writeElements] of lnwire (lnwire.go is not
    among the sources): the elements are written in the order given, and the
    first error is returned. *)
Fixpoint writeElements (w : Writer) (elements : list value)
  : option error * Writer :=
  match elements with
  | [] => (None, w)
  | e :: rest =>
      match writeElement w e with
      | (Some err, w') => (Some err, w')
      | (None, w') => writeElements w' rest
      end
  end.

(** ** The message *)

Record RevokeAndAck : Type := {
  ChannelPoint : wire.OutPoint;
  Revocation : list byte;                          (* [32]byte *)
  NextRevocationKey : option btcec.PublicKey;      (* nil is None *)
  NextRevocationHash : list byte                   (* [32]byte *)
}.

(** What the Go types of the fields guarantee. *)
Definition wf_RevokeAndAck (c : RevokeAndAck) : Prop :=
  wire.wf_OutPoint (ChannelPoint c) /\
  length (Revocation c) = 32%nat /\
  length (NextRevocationHash c) = 32%nat.

(** Assignments through [&c.ChannelPoint], [c.Revocation[:]],
    [&c.NextRevocationKey] and [c.NextRevocationHash[:]]. *)
Definition set_ChannelPoint (v : wire.OutPoint) (c : RevokeAndAck) :=
  {| ChannelPoint := v; Revocation := Revocation c;
     NextRevocationKey := NextRevocationKey c;
     NextRevocationHash := NextRevocationHash c |}.
Definition set_Revocation (v : list byte) (c : RevokeAndAck) :=
  {| ChannelPoint := ChannelPoint c; Revocation := v;
     NextRevocationKey := NextRevocationKey c;
     NextRevocationHash := NextRevocationHash c |}.
Definition set_NextRevocationKey (v : option btcec.PublicKey)
  (c : RevokeAndAck) :=
  {| ChannelPoint := ChannelPoint c; Revocation := Revocation c;
     NextRevocationKey := v;
     NextRevocationHash := NextRevocationHash c |}.
Definition set_NextRevocationHash (v : list byte) (c : RevokeAndAck) :=
  {| ChannelPoint := ChannelPoint c; Revocation := Revocation c;
     NextRevocationKey := NextRevocationKey c;
     NextRevocationHash := v |}.

(** [NewRevokeAndAck]: [&RevokeAndAck{}], every field at its zero value. *)
Definition NewRevokeAndAck : RevokeAndAck :=
  {| ChannelPoint := {| wire.Hash := zeroes 32; wire.Index := 0 |};
     Revocation := zeroes 32;
     NextRevocationKey := None;
     NextRevocationHash := zeroes 32 |}.

(** [(c *RevokeAndAck) Decode(r, pver)]: the error, the receiver and the
    reader after the call. *)
Definition Decode (c : RevokeAndAck) (r : Reader) (pver : Z)
  : option error * RevokeAndAck * Reader :=
  match readElements r
          [ PtrOutPoint set_ChannelPoint;
            SliceBytes Revocation set_Revocation;
            PtrPtrPublicKey set_NextRevocationKey;
            SliceBytes NextRevocationHash set_NextRevocationHash ] c with
  | (Some err, c', r') => (Some err, c', r')
  | (None, c', r') => (None, c', r')
  end.

(** [(c *RevokeAndAck) Encode(w, pver)]: the error and the writer after the
    call. *)
Definition Encode (c : RevokeAndAck) (w : Writer) (pver : Z)
  : option error * Writer :=
  match writeElements w
          [ OutPointVal (ChannelPoint c);
            BytesVal (Revocation c);
            PublicKeyPtr (NextRevocationKey c);
            BytesVal (NextRevocationHash c) ] with
  | (Some err, w') => (Some err, w')
  | (None, w') => (None, w')
  end.

(** The receiver [c] once the channel point and the revocation have been
    read from [hash], [idx] and [rev]. *)
Definition partly_decoded (c : RevokeAndAck) (hash idx rev : list byte)
  : RevokeAndAck :=
  {| ChannelPoint := {| wire.Hash := hash;
                        wire.Index := BigEndian_Uint32 idx |};
     Revocation := rev;
     NextRevocationKey := NextRevocationKey c;
     NextRevocationHash := NextRevocationHash c |}.

(** The message whose fields are read from [hash], [idx], [rev], the
    parsed key [k] and [nh]. *)
Definition decoded (hash idx rev : list byte) (k : btcec.PublicKey)
  (nh : list byte) : RevokeAndAck :=
  {| ChannelPoint := {| wire.Hash := hash;
                        wire.Index := BigEndian_Uint32 idx |};
     Revocation := rev;
     NextRevocationKey := Some k;
     NextRevocationHash := nh |}.

(** The bytes of a payload from offset [off], [n] of them. *)
Definition slice (payload : list byte) (off n : nat) : list byte :=
  firstn n (skipn off payload).

(** [(c *RevokeAndAck) Command()]; the constant [CmdRevokeAndAck] of lnwire
    (message.go) is a parameter. *)
Definition Command (CmdRevokeAndAck : Z) (c : RevokeAndAck) : Z :=
  CmdRevokeAndAck.

(** [(c *RevokeAndAck) MaxPayloadLength(uint32)]. *)
Definition MaxPayloadLength (c : RevokeAndAck) (pver : Z) : Z :=
  (* 36 + 32 + 33 + 32 *)
  133.

(** [(c *RevokeAndAck) Validate()]. *)
Definition Validate (c : RevokeAndAck) : option error :=
  (* We're good! *)
  None.

End lnwire.

(* ================================================================== *)
(** * The channel state machine: a revocation is received *)

Module channel.

(** [bytes.Equal]. *)
Fixpoint bytes_Equal (a b : list byte) : bool :=
  match a, b with
  | [], [] => true
  | x :: a', y :: b' => Byte.eqb x y && bytes_Equal a' b'
  | _, _ => false
  end.

(** Modelled from the spec: the states of the channel state machine (the
    state machine is not among the sources): "Stable", "ProposalSent",
    "ProposalReceived", "AwaitingRevocation" and the terminal
    "Breached". *)
Inductive State : Type :=
| Stable
| ProposalSent
| ProposalReceived
| AwaitingRevocation
| Breached.

(** Modelled from the spec: what the 32 bytes of a revocation stand for
    (the state machine that tells them apart is not among the sources): "an
    all-zero 32-byte revocation value signals no revocation yet", the seed
    of the initial revocation window, "distinct from an actual revoked
    secret"; the two are the variants "Some(secret) vs InitialWindowSeed"
    of the design notes. *)
Inductive RevocationValue : Type :=
| InitialWindowSeed
| Secret (s : list byte).

(** Modelled from the spec: the reading of the [Revocation] field of a
    received message (not among the sources): all zeroes ('0' * 32) is the
    seed, anything else a secret. *)
Definition revocation_value (rev : list byte) : RevocationValue :=
  if bytes_Equal rev (zeroes 32) then InitialWindowSeed else Secret rev.

(** Modelled from the spec: a channel, as far as a revocation concerns it
    (the channel is not among the sources): its state, the hash "previously
    committed" for the height that is to be revoked, and the "queue of
    unused revocations", each a next revocation key and a next revocation
    hash. *)
Record Channel : Type := {
  state : State;
  committed : list byte;
  window : list (option btcec.PublicKey * list byte)
}.

Section Receive.

(** The one-way hash a disclosed secret is checked with. *)
Variable hash : list byte -> list byte.

(** Modelled from the spec: the transition of the channel state machine
    on a received RevokeAndAck (the state machine is not among the
    sources).  A breached channel refuses further updates.  The all-zero
    revocation "only seeds the counterparty's initial revocation window":
    the message is added to the queue of unused revocations and nothing
    else happens; it is "never treated as a valid secret to hash-check
    against".  A disclosed secret is hash-checked: on a mismatch the
    channel is breached, from any state; when it "hashes to the value
    previously committed" the channel goes from awaiting the revocation
    to stable, and a revocation received in another state is a protocol
    violation, which breaches the channel. *)
Definition revocation_received (ch : Channel) (m : lnwire.RevokeAndAck)
  : Channel :=
  match state ch with
  | Breached => ch
  | st =>
      let seeded :=
        window ch ++ [(lnwire.NextRevocationKey m,
                       lnwire.NextRevocationHash m)] in
      match revocation_value (lnwire.Revocation m) with
      | InitialWindowSeed =>
          {| state := st; committed := committed ch; window := seeded |}
      | Secret s =>
          if bytes_Equal (hash s) (committed ch)
          then
            match st with
            | AwaitingRevocation =>
                {| state := Stable; committed := committed ch;
                   window := seeded |}
            | _ =>
                {| state := Breached; committed := committed ch;
                   window := window ch |}
            end
          else
            {| state := Breached; committed := committed ch;
               window := window ch |}
      end
  end.

End Receive.

End channel.

(* ================================================================== *)
(** * Package main: omnihandler.go *)

Module main.

(** ** What a run can be observed to do *)

(** An argument of a [fmt.Printf] call. *)
Inductive arg : Type :=
| ArgBytes (bs : list byte)
| ArgByte (b : byte)
| ArgInt (z : Z)
| ArgOutPoint (op : wire.OutPoint)
| ArgError (e : error).

(** The observable actions, in program order: output, handler calls, and
    sends on the omni channel. *)
Inductive event : Type :=
| Printf (format : string) (args : list arg)
| Call_PubReqHandler (from : list byte)
| Call_PubRespHandler (from : list byte) (payload : list byte)
| Call_QChanDescHandler (from : list byte) (payload : list byte)
| Call_QChanAckHandler (from : list byte) (payload : list byte)
| Call_CloseReqHandler (from : list byte) (payload : list byte)
| Call_CloseRespHandler (from : list byte) (payload : list byte)
| Send_OmniChan (msg : list byte).

(** A call either returns or panics. *)
Inductive outcome (A : Type) : Type :=
| Returned (a : A)
| Panic (reason : string).
Arguments Returned {A} a.
Arguments Panic {A} reason.

(** A loop that never returns either waits for its next input or has
    panicked. *)
Inductive status : Type :=
| Blocked
| Panicked (reason : string).

(** [s[i] = v], with Go's bounds check. *)
Definition index_set (s : list byte) (i : nat) (v : byte)
  : outcome (list byte) :=
  if (i <? length s)%nat
  then Returned (firstn i s ++ v :: skipn (S i) s)
  else Panic "index out of range".

(** ** The collaborators, none of which is among the sources *)

(** The message ids of package uwire. *)
Record uwire : Type := {
  MSGID_TEXTCHAT : byte;
  MSGID_PUBREQ : byte;
  MSGID_PUBRESP : byte;
  MSGID_MULTIDESC : byte;
  MSGID_MULTIACK : byte;
  MSGID_CLOSEREQ : byte;
  MSGID_CLOSERESP : byte
}.

(** The message handlers of package main, as transformers of the state [W]
    of the process (peers, channels, the database). *)
Record handlers (W : Type) : Type := {
  PubReqHandler : list byte -> W -> W;
  PubRespHandler : list byte -> list byte -> W -> W;
  QChanDescHandler : list byte -> list byte -> W -> W;
  QChanAckHandler : list byte -> list byte -> W -> W;
  CloseReqHandler : list byte -> list byte -> W -> W;
  CloseRespHandler : list byte -> list byte -> W -> W
}.
Arguments PubReqHandler {W} h from w.
Arguments PubRespHandler {W} h from payload w.
Arguments QChanDescHandler {W} h from payload w.
Arguments QChanAckHandler {W} h from payload w.
Arguments CloseReqHandler {W} h from payload w.
Arguments CloseRespHandler {W} h from payload w.

(** [uspv.Qchan], the fields [BreakChannel] reads. *)
Record Qchan : Type := {
  PeerIdx : Z;
  KeyIdx : Z;
  AtHeight : Z;
  Op : wire.OutPoint;
  Value : Z
}.

(** [RemoteCon], a [*lndc.LNDConn]: the field that is read. *)
Record LNDConn : Type := { RemotePub : list byte }.

(** The globals [RemoteCon] (nil is [None]) and [SCon.TS], the transaction
    store, by what its queries answer; and [uspv.OutPointToBytes]. *)
Record globals : Type := {
  RemoteCon : option LNDConn;
  GetPeerIdx : list byte -> error + Z;
  GetAllQchans : error + list Qchan;
  NewPeer : list byte -> error + bool;
  OutPointToBytes : wire.OutPoint -> list byte
}.

(** A [net.Conn] by what its successive [Read] calls deliver (the bytes, or
    an error) and what [Close] answers. *)
Record Conn : Type := {
  Read : list (error + list byte);
  Close : option error
}.

(** ** PushChannel and PushSig *)

Definition PushChannel (g : globals) (args : list string) : option error :=
  match RemoteCon g with
  | None => Some (ErrOther "Not connected to anyone, can't push\n")
  | Some _ => None
  end.

Definition PushSig (g : globals) (peerIdx cIdx amt : Z)
  : list event * option error :=
  match RemoteCon g with
  | None => ([], Some (ErrOther "Not connected to anyone, can't push\n"))
  | Some _ =>
      ([Printf "push %d to (%d,%d)\n" [ArgInt peerIdx; ArgInt cIdx; ArgInt amt]],
       None)
  end.

(** ** BreakChannel *)

(** The search loop of [BreakChannel]: the output and [opBytes] when the
    loop is left; [opBytes] keeps the value it had unless a channel of the
    peer is found. *)
Fixpoint find_chan (g : globals) (currentPeerIdx : Z) (multis : list Qchan)
  (opBytes : list byte) : list event * list byte :=
  match multis with
  | [] => ([], opBytes)
  | m :: rest =>
      if PeerIdx m =? currentPeerIdx
      then
        ([Printf "peerIdx %d multIdx %d height %d %s amt: %d\n"
            [ArgInt (PeerIdx m); ArgInt (KeyIdx m); ArgInt (AtHeight m);
             ArgOutPoint (Op m); ArgInt (Value m)]],
         OutPointToBytes g (Op m))
      else find_chan g currentPeerIdx rest opBytes
  end.

Definition BreakChannel (g : globals) (args : list string)
  : list event * outcome (option error) :=
  match RemoteCon g with
  | None => ([], Panic "invalid memory address or nil pointer dereference")
  | Some remoteCon =>
      (* find the peer index of who we're connected to *)
      match GetPeerIdx g (RemotePub remoteCon) with
      | inl err => ([], Returned (Some err))
      | inr currentPeerIdx =>
          (* get all multi txs *)
          match GetAllQchans g with
          | inl err => ([], Returned (Some err))
          | inr multis =>
              (* var opBytes []byte: nil *)
              let '(out, opBytes) := find_chan g currentPeerIdx multis [] in
              match index_set opBytes 0 x00 with
              | Panic reason => (out, Panic reason)
              | Returned _ => (out, Returned None)
              end
          end
      end
  end.

(** ** OmniHandler *)

Section Dispatch.

Variable W : Type.
Variable ids : uwire.
Variable h : handlers W.

(** One iteration of the loop of [OmniHandler] on the frame [newdata]
    received from the channel, with [from] and the process state as they
    are when the frame arrives: the events of the iteration, and either
    the [from] and the state the next iteration starts with, or a
    panic. *)
Definition OmniHandler_iteration (newdata from : list byte) (w : W)
  : list event * outcome (list byte * W) :=
  if (length newdata <? 17)%nat
  then ([Printf "got too short message" []], Returned (from, w))
  else
    let from := copy from (firstn 16 newdata) in
    let msg := skipn 16 newdata in
    match msg with
    | [] => ([], Panic "index out of range")
    | msgid :: msg1 =>
        (* TEXT MESSAGE.  SIMPLE *)
        if Byte.eqb msgid (MSGID_TEXTCHAT ids)
        then ([Printf "text from %x: %s\n" [ArgBytes from; ArgBytes msg1]],
              Returned (from, w))
        (* PUBKEY REQUEST *)
        else if Byte.eqb msgid (MSGID_PUBREQ ids)
        then ([Printf "got pubkey req from %x\n" [ArgBytes from];
               Call_PubReqHandler from],
              Returned (from, PubReqHandler h from w))
        (* PUBKEY RESPONSE *)
        else if Byte.eqb msgid (MSGID_PUBRESP ids)
        then ([Printf "got pubkey response from %x\n" [ArgBytes from];
               Call_PubRespHandler from msg1],
              Returned (from, PubRespHandler h from msg1 w))
        (* MULTISIG DESCTIPTION *)
        else if Byte.eqb msgid (MSGID_MULTIDESC ids)
        then ([Printf "Got multisig description from %x\n" [ArgBytes from];
               Call_QChanDescHandler from msg1],
              Returned (from, QChanDescHandler h from msg1 w))
        (* MULTISIG ACK *)
        else if Byte.eqb msgid (MSGID_MULTIACK ids)
        then ([Printf "Got multisig ack from %x\n" [ArgBytes from];
               Call_QChanAckHandler from msg1],
              Returned (from, QChanAckHandler h from msg1 w))
        (* CLOSE REQ *)
        else if Byte.eqb msgid (MSGID_CLOSEREQ ids)
        then ([Printf "Got close request from %x\n" [ArgBytes from];
               Call_CloseReqHandler from msg1],
              Returned (from, CloseReqHandler h from msg1 w))
        (* CLOSE RESP *)
        else if Byte.eqb msgid (MSGID_CLOSERESP ids)
        then ([Printf "Got close response from %x\n" [ArgBytes from];
               Call_CloseRespHandler from msg1],
              Returned (from, CloseRespHandler h from msg1 w))
        else ([Printf "Unknown message id byte %x" [ArgByte msgid]],
              Returned (from, w))
    end.

(** The loop, on the frames the channel delivers, in order; when they
    are used up the loop is blocked at the receive. *)
Fixpoint OmniHandler_loop (OmniChan : list (list byte)) (from : list byte)
  (w : W) : list event * W * status :=
  match OmniChan with
  | [] => ([], w, Blocked)
  | newdata :: rest =>
      match OmniHandler_iteration newdata from w with
      | (out, Panic reason) => (out, w, Panicked reason)
      | (out, Returned (from', w')) =>
          let '(out', w'', st) := OmniHandler_loop rest from' w' in
          (out ++ out', w'', st)
      end
  end.

(** [OmniHandler(OmniChan)]: [var from [16]byte], then the loop. *)
Definition OmniHandler (OmniChan : list (list byte)) (w : W)
  : list event * W * status :=
  OmniHandler_loop OmniChan (zeroes 16) w.

End Dispatch.

Arguments OmniHandler_iteration {W} ids h newdata from w.
Arguments OmniHandler_loop {W} ids h OmniChan from w.
Arguments OmniHandler {W} ids h OmniChan w.

(** ** LNDCReceiver *)

(** The size of the buffer of each read. *)
Definition read_buffer : nat := Z.to_nat 65535.

(** The receive loop: [msg[:n]] is what the read delivered, at most the
    buffer; the 16 bytes of [id] are put in front and the result is sent.
    A read error ends the loop with [l.Close()]; when the reads are used up
    the loop is blocked at [l.Read]. *)
Fixpoint LNDCReceiver_loop (reads : list (error + list byte))
  (close : option error) (id : list byte)
  : list event * outcome (option error) + list event :=
  match reads with
  | [] => inr []
  | inl err :: _ =>
      inl ([Printf "read error with %x: %s\n" [ArgBytes id; ArgError err]],
           Returned close)
  | inr data :: rest =>
      let msg := firstn read_buffer data in
      let msg := id ++ msg in
      let out := [Printf "incoming msg %x\n" [ArgBytes msg]; Send_OmniChan msg] in
      match LNDCReceiver_loop rest close id with
      | inl (out', res) => inl (out ++ out', res)
      | inr out' => inr (out ++ out')
      end
  end.

(** [LNDCReceiver(l, id, OmniChan)]: [inl] when the call ends (it returned
    or panicked), [inr] when it is blocked in a read; with the events up to
    there. *)
Definition LNDCReceiver (g : globals) (l : Conn) (id : list byte)
  : list event * outcome (option error) + list event :=
  match RemoteCon g with
  | None => inl ([], Panic "invalid memory address or nil pointer dereference")
  | Some remoteCon =>
      (* first store peer in DB if not yet known *)
      match NewPeer g (RemotePub remoteCon) with
      | inl err => inl ([], Returned (Some err))
      | inr _ => LNDCReceiver_loop (Read l) (Close l) id
      end
  end.

(** What the reads deliver before the first read error. *)
Fixpoint delivered (reads : list (error + list byte)) : list (list byte) :=
  match reads with
  | inr data :: rest => data :: delivered rest
  | _ => []
  end.

(** The events of a run that ended or is blocked. *)
Definition events_of {A : Type} (run : list event * A + list event)
  : list event :=
  match run with
  | inl (out, _) => out
  | inr out => out
  end.

(** The frames a run of [LNDCReceiver] put on the channel. *)
Definition sent (out : list event) : list (list byte) :=
  flat_map (fun e => match e with Send_OmniChan m => [m] | _ => [] end) out.

(** The handler calls among the events of a run, and the payload a handler
    call was given ([PubReqHandler] takes none). *)
Definition is_call (e : event) : bool :=
  match e with
  | Printf _ _ | Send_OmniChan _ => false
  | _ => true
  end.

Definition payload_of (e : event) : option (list byte) :=
  match e with
  | Call_PubRespHandler _ p | Call_QChanDescHandler _ p
  | Call_QChanAckHandler _ p | Call_CloseReqHandler _ p
  | Call_CloseRespHandler _ p => Some p
  | _ => None
  end.

(** The sender a handler call was given. *)
Definition sender_of (e : event) : option (list byte) :=
  match e with
  | Call_PubReqHandler f
  | Call_PubRespHandler f _ | Call_QChanDescHandler f _
  | Call_QChanAckHandler f _ | Call_CloseReqHandler f _
  | Call_CloseRespHandler f _ => Some f
  | _ => None
  end.

(** The lines of output among the events of a run. *)
Definition is_printf (e : event) : bool :=
  match e with
  | Printf _ _ => true
  | _ => false
  end.

(** The message ids that have a handler. *)
Definition handled_ids (ids : uwire) : list byte :=
  [ MSGID_PUBREQ ids; MSGID_PUBRESP ids; MSGID_MULTIDESC ids;
    MSGID_MULTIACK ids; MSGID_CLOSEREQ ids; MSGID_CLOSERESP ids ].

(** The line [BreakChannel] prints for the channel it found. *)
Definition channel_line (m : Qchan) : event :=
  Printf "peerIdx %d multIdx %d height %d %s amt: %d\n"
    [ArgInt (PeerIdx m); ArgInt (KeyIdx m); ArgInt (AtHeight m);
     ArgOutPoint (Op m); ArgInt (Value m)].

(** The message ids [OmniHandler] knows. *)
Definition known_ids (ids : uwire) : list byte :=
  [ MSGID_TEXTCHAT ids; MSGID_PUBREQ ids; MSGID_PUBRESP ids;
    MSGID_MULTIDESC ids; MSGID_MULTIACK ids; MSGID_CLOSEREQ ids;
    MSGID_CLOSERESP ids ].

End main.

(* ================================================================== *)
(** * Sample values *)

Module samples.

(** The generator of secp256k1 and its compressed form. *)
Definition G : btcec.PublicKey :=
  {| btcec.X :=
       0x79BE667EF9DCBBAC55A06295CE870B07029BFCDB2DCE28D959F2815B16F81798;
     btcec.Y :=
       0x483ADA7726A3C4655DA4FBFC0E1108A8FD17B448A68554199C47D08FFB10D4B8 |}.

Definition G_bytes : list byte := x02 :: be_fixed 32 (btcec.X G).

(** The parts of a payload: an outpoint hash, the index 258, a revocation,
    a next revocation hash. *)
Definition hash0 : list byte := repeat x11 32.
Definition idx0 : list byte := [x00; x00; x01; x02].
Definition rev0 : list byte := repeat xaa 32.
Definition nh0 : list byte := repeat x22 32.

Definition payload0 : list byte := hash0 ++ idx0 ++ rev0 ++ G_bytes ++ nh0.

(** The same payload with the all-zero revocation. *)
Definition payload_irw : list byte :=
  hash0 ++ idx0 ++ zeroes 32 ++ G_bytes ++ nh0.

Definition msg0 : lnwire.RevokeAndAck :=
  {| lnwire.ChannelPoint := {| wire.Hash := hash0; wire.Index := 258 |};
     lnwire.Revocation := rev0;
     lnwire.NextRevocationKey := Some G;
     lnwire.NextRevocationHash := nh0 |}.

(** Message ids, all different. *)
Definition ids0 : main.uwire :=
  {| main.MSGID_TEXTCHAT := x70;
     main.MSGID_PUBREQ := x30;
     main.MSGID_PUBRESP := x31;
     main.MSGID_MULTIDESC := x32;
     main.MSGID_MULTIACK := x33;
     main.MSGID_CLOSEREQ := x40;
     main.MSGID_CLOSERESP := x41 |}.

(** Handlers that count their calls. *)
Definition counting : main.handlers nat :=
  {| main.PubReqHandler := fun _ n => S n;
     main.PubRespHandler := fun _ _ n => S n;
     main.QChanDescHandler := fun _ _ n => S n;
     main.QChanAckHandler := fun _ _ n => S n;
     main.CloseReqHandler := fun _ _ n => S n;
     main.CloseRespHandler := fun _ _ n => S n |}.

Definition peer0 : list byte := repeat x01 16.

(** A process connected to a peer of index 1, whose only channel is with
    the peer of index 2. *)
Definition chan2 : main.Qchan :=
  {| main.PeerIdx := 2; main.KeyIdx := 0; main.AtHeight := 100;
     main.Op := {| wire.Hash := hash0; wire.Index := 0 |};
     main.Value := 50000 |}.

Definition globals0 : main.globals :=
  {| main.RemoteCon := Some {| main.RemotePub := G_bytes |};
     main.GetPeerIdx := fun _ => inr 1;
     main.GetAllQchans := inr [chan2];
     main.NewPeer := fun _ => inr true;
     main.OutPointToBytes :=
       fun op => wire.Hash op ++ BigEndian_PutUint32 (wire.Index op) |}.

(** The same process with a channel of the peer it is connected to. *)
Definition chan1 : main.Qchan :=
  {| main.PeerIdx := 1; main.KeyIdx := 3; main.AtHeight := 101;
     main.Op := {| wire.Hash := nh0; wire.Index := 1 |};
     main.Value := 70000 |}.

Definition globals1 : main.globals :=
  {| main.RemoteCon := main.RemoteCon globals0;
     main.GetPeerIdx := main.GetPeerIdx globals0;
     main.GetAllQchans := inr [chan2; chan1];
     main.NewPeer := main.NewPeer globals0;
     main.OutPointToBytes := main.OutPointToBytes globals0 |}.

(** A process that is not connected, and one whose peer is not in the
    store. *)
Definition globals_none : main.globals :=
  {| main.RemoteCon := None;
     main.GetPeerIdx := main.GetPeerIdx globals0;
     main.GetAllQchans := main.GetAllQchans globals0;
     main.NewPeer := main.NewPeer globals0;
     main.OutPointToBytes := main.OutPointToBytes globals0 |}.

Definition globals_unknown_peer : main.globals :=
  {| main.RemoteCon := main.RemoteCon globals0;
     main.GetPeerIdx := fun _ => inl (ErrOther "peer not found");
     main.GetAllQchans := main.GetAllQchans globals0;
     main.NewPeer := main.NewPeer globals0;
     main.OutPointToBytes := main.OutPointToBytes globals0 |}.

(** Frames no handler is called for: one too short, a text message, one
    of an unknown id. *)
Definition quiet_frames : list (list byte) :=
  [ [x31; xaa]; peer0 ++ [x70; x68; x69]; peer0 ++ [xee] ].


(** A channel that awaits a revocation for a commitment whose committed
    hash is all 0xff, and two stand-ins for the hash function. *)
Definition channel0 : channel.Channel :=
  {| channel.state := channel.AwaitingRevocation;
     channel.committed := repeat xff 32;
     channel.window := [] |}.

Definition hash_a : list byte -> list byte := fun s => s.
Definition hash_b : list byte -> list byte := fun _ => repeat xff 32.

(** A connection that delivers two messages and then fails. *)
Definition conn0 : main.Conn :=
  {| main.Read := [inr [x30]; inr [x31; xaa; xbb]; inl io_EOF];
     main.Close := None |}.

End samples.

Import lnwire main.

(* ================================================================== *)
(** * Lemmas on bytes and byte order *)

Section ByteFacts.

Lemma byte_to_Z_range (b : byte) : 0 <= byte_to_Z b < 256.
Proof.
  unfold byte_to_Z. pose proof (Byte.to_N_bounded b). lia.
Qed.

Lemma byte_of_to_Z (b : byte) : byte_of_Z (byte_to_Z b) = b.
Proof.
  unfold byte_of_Z. rewrite Z.mod_small by apply byte_to_Z_range.
  unfold byte_to_Z. rewrite N2Z.id, Byte.of_to_N. reflexivity.
Qed.

Lemma byte_to_of_Z (z : Z) : byte_to_Z (byte_of_Z z) = z mod 256.
Proof.
  unfold byte_of_Z, byte_to_Z.
  assert (Hr : 0 <= z mod 256 < 256) by (apply Z.mod_pos_bound; lia).
  destruct (Byte.of_N (Z.to_N (z mod 256))) as [b|] eqn:E.
  - apply Byte.to_of_N in E. rewrite E. lia.
  - apply Byte.of_N_None_iff in E. lia.
Qed.

Lemma byte_of_Z_mod (z : Z) : byte_of_Z (z mod 256) = byte_of_Z z.
Proof. unfold byte_of_Z. rewrite Z.mod_mod by lia. reflexivity. Qed.

Lemma byte_of_Z_low (a : Z) (b : byte) :
  byte_of_Z (a * 256 + byte_to_Z b) = b.
Proof.
  rewrite <- byte_of_Z_mod.
  rewrite Z.add_comm, Z.mod_add by lia.
  rewrite byte_of_Z_mod. apply byte_of_to_Z.
Qed.

Lemma testbit_byte (z m : Z) :
  Z.testbit (byte_to_Z (byte_of_Z z)) m
  = (0 <=? m) && (m <? 8) && Z.testbit z m.
Proof.
  rewrite byte_to_of_Z. change 256 with (2 ^ 8).
  destruct (Z.leb_spec 0 m) as [Hpos|Hneg]; cbn [andb].
  - destruct (Z.ltb_spec m 8) as [Hlt|Hge]; cbn [andb].
    + apply Z.mod_pow2_bits_low. lia.
    + apply Z.mod_pow2_bits_high. lia.
  - apply Z.testbit_neg_r. lia.
Qed.

Lemma testbit_uint32_high (v n : Z) :
  0 <= v < 2 ^ 32 -> 32 <= n -> Z.testbit v n = false.
Proof.
  intros Hv Hn.
  destruct (Z.eq_dec v 0) as [->|Hnz]; [apply Z.bits_0|].
  apply Z.bits_above_log2; [lia|].
  assert (Z.log2 v < 32) by (apply Z.log2_lt_pow2; lia). lia.
Qed.

(** Decides the comparisons of a bit index against byte boundaries. *)
Ltac decide_bounds :=
  repeat match goal with
         | |- context [?a <? ?b] =>
             first [ replace (a <? b) with true
                       by (symmetry; apply Z.ltb_lt; lia)
                   | replace (a <? b) with false
                       by (symmetry; apply Z.ltb_ge; lia) ]
         | |- context [?a <=? ?b] =>
             first [ replace (a <=? b) with true
                       by (symmetry; apply Z.leb_le; lia)
                   | replace (a <=? b) with false
                       by (symmetry; apply Z.leb_gt; lia) ]
         end;
  cbn [andb orb]; rewrite ?orb_false_r.

(** [PutUint32] and [Uint32] are inverse on the range of [uint32]. *)
Lemma Uint32_PutUint32 (v : Z) :
  0 <= v < 2 ^ 32 -> BigEndian_Uint32 (BigEndian_PutUint32 v) = v.
Proof.
  intros Hv. unfold BigEndian_PutUint32, BigEndian_Uint32.
  apply Z.bits_inj'. intros n Hn.
  rewrite !Z.lor_spec, !Z.shiftl_spec by lia.
  rewrite !testbit_byte.
  destruct (Z.lt_ge_cases n 8) as [H8|H8];
    [|destruct (Z.lt_ge_cases n 16) as [H16|H16];
      [|destruct (Z.lt_ge_cases n 24) as [H24|H24];
        [|destruct (Z.lt_ge_cases n 32) as [H32|H32]]]];
    decide_bounds.
  - reflexivity.
  - rewrite Z.shiftr_spec by lia. f_equal. lia.
  - rewrite Z.shiftr_spec by lia. f_equal. lia.
  - rewrite Z.shiftr_spec by lia. f_equal. lia.
  - symmetry. apply testbit_uint32_high; lia.
Qed.

Lemma length_zeroes (n : nat) : length (zeroes n) = n.
Proof. apply repeat_length. Qed.

Lemma length_be_fixed (n : nat) (z : Z) : length (be_fixed n z) = n.
Proof.
  revert z. induction n as [|n IH]; intros z; cbn [be_fixed].
  - reflexivity.
  - rewrite length_app, IH. cbn. lia.
Qed.

Lemma SetBytes_snoc (l : list byte) (b : byte) :
  SetBytes (l ++ [b]) = SetBytes l * 256 + byte_to_Z b.
Proof. unfold SetBytes. rewrite fold_left_app. reflexivity. Qed.

Lemma SetBytes_range (bs : list byte) :
  0 <= SetBytes bs < 256 ^ Z.of_nat (length bs).
Proof.
  induction bs as [|b l IH] using rev_ind.
  - cbn. lia.
  - rewrite SetBytes_snoc, length_app. cbn [length].
    replace (Z.of_nat (length l + 1)) with (Z.of_nat (length l) + 1) by lia.
    rewrite Z.pow_add_r by lia.
    pose proof (byte_to_Z_range b). nia.
Qed.

(** The fixed-width form of the value of a byte string is the string. *)
Lemma be_fixed_SetBytes (bs : list byte) :
  be_fixed (length bs) (SetBytes bs) = bs.
Proof.
  induction bs as [|b l IH] using rev_ind.
  - reflexivity.
  - rewrite length_app. cbn [length].
    replace (length l + 1)%nat with (S (length l)) by lia.
    cbn [be_fixed]. rewrite SetBytes_snoc, byte_of_Z_low.
    rewrite Z.shiftr_div_pow2 by lia. change (2 ^ 8) with 256.
    pose proof (byte_to_Z_range b).
    rewrite Z.add_comm, Z.div_add by lia.
    rewrite Z.div_small by lia. cbn [Z.add]. rewrite IH. reflexivity.
Qed.

(** The value of the fixed-width form of a number that fits is the
    number. *)
Lemma SetBytes_be_fixed (n : nat) (z : Z) :
  0 <= z < 256 ^ Z.of_nat n -> SetBytes (be_fixed n z) = z.
Proof.
  revert z. induction n as [|n IH]; intros z Hz.
  - cbn in Hz. cbn. lia.
  - cbn [be_fixed]. rewrite SetBytes_snoc, byte_to_of_Z.
    rewrite Z.shiftr_div_pow2 by lia. change (2 ^ 8) with 256.
    replace (Z.of_nat (S n)) with (Z.of_nat n + 1) in Hz by lia.
    rewrite Z.pow_add_r in Hz by lia.
    rewrite IH.
    + pose proof (Z.div_mod z 256 ltac:(lia)). lia.
    + split; [apply Z.div_pos; lia|].
      apply Z.div_lt_upper_bound; lia.
Qed.

Lemma be_fixed_0 (k : nat) : be_fixed k 0 = zeroes k.
Proof.
  induction k as [|k IH]; [reflexivity|].
  cbn [be_fixed]. rewrite Z.shiftr_0_l, IH.
  unfold zeroes. change [byte_of_Z 0] with [x00].
  rewrite <- repeat_cons. reflexivity.
Qed.

Lemma be_fixed_pad (k n : nat) (z : Z) :
  0 <= z < 256 ^ Z.of_nat n ->
  be_fixed (k + n) z = zeroes k ++ be_fixed n z.
Proof.
  revert z. induction n as [|n IH]; intros z Hz.
  - cbn in Hz. replace z with 0 by lia.
    rewrite Nat.add_0_r, be_fixed_0, app_nil_r. reflexivity.
  - replace (k + S n)%nat with (S (k + n)) by lia. cbn [be_fixed].
    rewrite IH, app_assoc; [reflexivity|].
    rewrite Z.shiftr_div_pow2 by lia. change (2 ^ 8) with 256.
    replace (Z.of_nat (S n)) with (Z.of_nat n + 1) in Hz by lia.
    rewrite Z.pow_add_r in Hz by lia.
    split; [apply Z.div_pos; lia|].
    apply Z.div_lt_upper_bound; lia.
Qed.

Lemma byte_len_bound (z : Z) :
  0 <= z -> z < 256 ^ Z.of_nat (byte_len z).
Proof.
  intros Hz. unfold byte_len.
  destruct (Z.eqb_spec z 0) as [->|Hnz]; [cbn; lia|].
  pose proof (Z.log2_nonneg z) as Hl.
  assert (Hd : 0 <= Z.log2 z / 8) by (apply Z.div_pos; lia).
  rewrite Z2Nat.id by lia.
  change 256 with (2 ^ 8). rewrite <- Z.pow_mul_r by lia.
  apply Z.lt_le_trans with (2 ^ (Z.log2 z + 1)).
  - replace (Z.log2 z + 1) with (Z.succ (Z.log2 z)) by lia.
    apply Z.log2_spec. lia.
  - apply Z.pow_le_mono_r; [lia|].
    pose proof (Z.mod_pos_bound (Z.log2 z) 8 ltac:(lia)).
    pose proof (Z.div_mod (Z.log2 z) 8 ltac:(lia)). lia.
Qed.

Lemma byte_len_le (z : Z) (n : nat) :
  0 <= z < 256 ^ Z.of_nat n -> (byte_len z <= n)%nat.
Proof.
  intros Hz. unfold byte_len.
  destruct (Z.eqb_spec z 0) as [->|Hnz]; [lia|].
  assert (Hlog : Z.log2 z < 8 * Z.of_nat n).
  { apply Z.log2_lt_pow2; [lia|].
    rewrite Z.pow_mul_r by lia. exact (proj2 Hz). }
  assert (Z.log2 z / 8 < Z.of_nat n)
    by (apply Z.div_lt_upper_bound; lia).
  pose proof (Z.log2_nonneg z).
  assert (0 <= Z.log2 z / 8) by (apply Z.div_pos; lia).
  lia.
Qed.

(** Padding the minimal form to [n] bytes gives the fixed-width form. *)
Lemma Bytes_padded (n : nat) (z : Z) :
  0 <= z < 256 ^ Z.of_nat n ->
  zeroes (n - length (Bytes z)) ++ Bytes z = be_fixed n z.
Proof.
  intros Hz. unfold Bytes. rewrite Z.abs_eq by lia.
  rewrite length_be_fixed.
  pose proof (byte_len_le z n Hz) as Hle.
  rewrite <- be_fixed_pad by (split; [lia|apply byte_len_bound; lia]).
  f_equal. lia.
Qed.

Lemma copy_full (n : nat) (l : list byte) :
  length l = n -> copy (zeroes n) l = l.
Proof.
  intros Hl. unfold copy. rewrite length_zeroes.
  rewrite firstn_all2 by lia.
  rewrite skipn_all2 by (rewrite length_zeroes; lia).
  apply app_nil_r.
Qed.

End ByteFacts.

(* ================================================================== *)
(** * Lemmas on the reader *)

Section ReaderFacts.

Lemma firstn_length_app (a rest : list byte) :
  firstn (length a) (a ++ rest) = a.
Proof. induction a as [|x a IH]; cbn; [destruct rest|rewrite IH]; reflexivity. Qed.

Lemma skipn_length_app (a rest : list byte) :
  skipn (length a) (a ++ rest) = rest.
Proof. induction a as [|x a IH]; cbn; [reflexivity|exact IH]. Qed.

(** A read that finds enough bytes takes exactly the length of the
    buffer. *)
Lemma ReadFull_enough (r : Reader) (buf : list byte) :
  (length buf <= length r)%nat ->
  ReadFull r buf = (None, firstn (length buf) r, skipn (length buf) r).
Proof.
  intros Hle. unfold ReadFull.
  destruct buf as [|b buf]; [reflexivity|].
  destruct r as [|x r]; [cbn in Hle; lia|].
  replace (length (x :: r) <? length (b :: buf))%nat with false; [reflexivity|].
  symmetry. apply Nat.ltb_ge. exact Hle.
Qed.

Lemma ReadFull_exact (a rest buf : list byte) :
  length a = length buf -> ReadFull (a ++ rest) buf = (None, a, rest).
Proof.
  intros Hlen. rewrite ReadFull_enough by (rewrite length_app; lia).
  rewrite <- Hlen, firstn_length_app, skipn_length_app. reflexivity.
Qed.

(** A read that finds too few bytes fails, with one of the two
    end-of-stream errors. *)
Lemma ReadFull_short (r : Reader) (buf : list byte) :
  (length r < length buf)%nat ->
  exists err buf' r',
    ReadFull r buf = (Some err, buf', r') /\
    (err = io_EOF \/ err = io_ErrUnexpectedEOF).
Proof.
  intros Hlt. unfold ReadFull.
  destruct buf as [|b buf]; [cbn in Hlt; lia|].
  destruct r as [|x r]; [eauto 6|].
  replace (length (x :: r) <? length (b :: buf))%nat with true; [eauto 6|].
  symmetry. apply Nat.ltb_lt. exact Hlt.
Qed.

End ReaderFacts.

(* ================================================================== *)
(** * Lemmas on btcec *)

Section KeyFacts.

Import btcec.

Lemma format_cases (f : byte) :
  (Z.land (byte_to_Z f) 254 =? pubkeyCompressed) = true ->
  f = x02 \/ f = x03.
Proof.
  destruct f; vm_compute; intros H; try discriminate H; auto.
Qed.

Lemma decompressPoint_parity (x y : Z) (ybit : bool) :
  decompressPoint x ybit = inr y -> isOdd y = ybit.
Proof.
  unfold decompressPoint.
  set (y0 := Exp (x * x * x + B) QPlus1Div4 P).
  set (y1 := if Bool.eqb ybit (isOdd y0) then y0 else P - y0).
  destruct (Bool.eqb ybit (isOdd y1)) eqn:E; intros H; inversion H; subst.
  symmetry. apply eqb_prop. exact E.
Qed.

(** What a successful parse tells about its input and its result. *)
Lemma ParsePubKey_inr (s : list byte) (k : PublicKey) :
  ParsePubKey s = inr k ->
  exists f xs,
    s = f :: xs /\ length xs = 32%nat /\ (f = x02 \/ f = x03) /\
    X k = SetBytes xs /\
    isOdd (Y k) = (Z.land (byte_to_Z f) 1 =? 1) /\
    decompressPoint (X k) (isOdd (Y k)) = inr (Y k) /\
    X k < P /\ Y k < P /\ IsOnCurve (X k) (Y k) = true.
Proof.
  unfold ParsePubKey. destruct s as [|f xs]; [discriminate|].
  destruct (length (f :: xs) =? PubKeyBytesLenCompressed)%nat eqn:Hlen;
    cbn [negb]; [|discriminate].
  destruct (Z.land (byte_to_Z f) 254 =? pubkeyCompressed) eqn:Hfmt;
    cbn [negb]; [|discriminate].
  destruct (decompressPoint (SetBytes xs) (Z.land (byte_to_Z f) 1 =? 1))
    as [e|y] eqn:Hd; [discriminate|].
  destruct (P <=? SetBytes xs) eqn:HX; [discriminate|].
  destruct (P <=? y) eqn:HY; [discriminate|].
  destruct (IsOnCurve (SetBytes xs) y) eqn:Hc; cbn [negb]; [|discriminate].
  intros H. inversion H; subst k; clear H. cbn [X Y].
  exists f, xs. apply Nat.eqb_eq in Hlen. cbn in Hlen.
  apply Z.leb_gt in HX, HY.
  unfold PubKeyBytesLenCompressed in Hlen.
  split; [reflexivity|]. split; [lia|].
  split; [apply format_cases; assumption|].
  split; [reflexivity|].
  pose proof (decompressPoint_parity _ _ _ Hd) as Hpar.
  split; [exact Hpar|].
  split; [rewrite Hpar; exact Hd|].
  repeat split; assumption.
Qed.

(** Serialising a parsed key gives back the 33 bytes it was parsed from. *)
Lemma SerializeCompressed_ParsePubKey (s : list byte) (k : PublicKey) :
  ParsePubKey s = inr k -> SerializeCompressed k = s /\ length s = 33%nat.
Proof.
  intros H.
  destruct (ParsePubKey_inr s k H)
    as (f & xs & -> & Hlen & Hf & HXk & Hodd & _ & _ & _ & _).
  split; [|cbn; lia].
  unfold SerializeCompressed, paddedAppend. rewrite Hodd, HXk.
  rewrite Bytes_padded
    by (rewrite <- Hlen; apply SetBytes_range).
  rewrite <- Hlen, be_fixed_SetBytes.
  destruct Hf as [-> | ->]; reflexivity.
Qed.

Lemma WellFormed_serialize (k : PublicKey) :
  WellFormed k ->
  ParsePubKey (SerializeCompressed k) = inr k /\
  length (SerializeCompressed k) = 33%nat.
Proof.
  intros [s Hs].
  destruct (SerializeCompressed_ParsePubKey s k Hs) as [-> Hlen].
  split; assumption.
Qed.

(** A well-formed key is a point of the curve with coordinates in range. *)
Lemma WellFormed_on_curve (k : PublicKey) :
  WellFormed k ->
  0 <= X k < P /\ Y k < P /\ IsOnCurve (X k) (Y k) = true.
Proof.
  intros [s Hs].
  destruct (ParsePubKey_inr s k Hs)
    as (f & xs & _ & _ & _ & HXk & _ & _ & HX & HY & Hc).
  repeat split; try assumption.
  rewrite HXk. apply SetBytes_range.
Qed.

Lemma P_below_2_256 : P < 256 ^ Z.of_nat 32.
Proof. vm_compute. reflexivity. Qed.

(** Well-formedness without the parser: a point of the curve with
    coordinates in range whose [Y] is the root that decompression picks for
    its parity. *)
Lemma WellFormed_iff (k : PublicKey) :
  WellFormed k <->
  0 <= X k < P /\ Y k < P /\ IsOnCurve (X k) (Y k) = true /\
  decompressPoint (X k) (isOdd (Y k)) = inr (Y k).
Proof.
  split.
  - intros [s Hs].
    destruct (ParsePubKey_inr s k Hs)
      as (f & xs & _ & _ & _ & HXk & _ & Hd & HX & HY & Hc).
    repeat split; try assumption.
    rewrite HXk. apply SetBytes_range.
  - intros ([HX0 HX] & HY & Hc & Hd).
    exists (byte_of_Z (if isOdd (Y k) then 3 else 2) :: be_fixed 32 (X k)).
    unfold ParsePubKey.
    cbn [length]. rewrite length_be_fixed.
    change (33 =? PubKeyBytesLenCompressed)%nat with true. cbn [negb].
    rewrite SetBytes_be_fixed by (pose proof P_below_2_256; lia).
    assert (Hfmt : (Z.land (byte_to_Z (byte_of_Z (if isOdd (Y k) then 3 else 2)))
                      254 =? pubkeyCompressed) = true)
      by (destruct (isOdd (Y k)); reflexivity).
    assert (Hbit : (Z.land (byte_to_Z (byte_of_Z (if isOdd (Y k) then 3 else 2)))
                      1 =? 1) = isOdd (Y k))
      by (destruct (isOdd (Y k)); reflexivity).
    rewrite Hfmt, Hbit, Hd. cbn [negb].
    replace (P <=? X k) with false by (symmetry; apply Z.leb_gt; lia).
    replace (P <=? Y k) with false by (symmetry; apply Z.leb_gt; lia).
    rewrite Hc. destruct k; reflexivity.
Qed.

End KeyFacts.

(* ================================================================== *)
(** * RevokeAndAck: decoding and encoding *)

Section RevokeAndAckFacts.

Import lnwire.

(** [Decode] on a stream that holds a whole payload: what each run of
    bytes becomes. *)
Lemma Decode_fields (c : RevokeAndAck) (hash idx rev kb nh rest : list byte)
  (pver : Z) :
  wf_RevokeAndAck c ->
  length hash = 32%nat -> length idx = 4%nat -> length rev = 32%nat ->
  length kb = 33%nat -> length nh = 32%nat ->
  Decode c (hash ++ idx ++ rev ++ kb ++ nh ++ rest) pver =
  match btcec.ParsePubKey kb with
  | inr k => (None, decoded hash idx rev k nh, rest)
  | inl err => (Some err, partly_decoded c hash idx rev, nh ++ rest)
  end.
Proof.
  intros (_ & Hrev & Hnh) H1 H2 H3 H4 H5.
  unfold Decode, readElements, readElement.
  rewrite ReadFull_exact by (rewrite length_zeroes; lia). cbv beta iota.
  rewrite ReadFull_exact by (rewrite length_zeroes; lia). cbv beta iota.
  cbn [Revocation set_ChannelPoint].
  rewrite ReadFull_exact by lia. cbv beta iota.
  rewrite ReadFull_exact
    by (rewrite length_zeroes; unfold btcec.PubKeyBytesLenCompressed; lia).
  cbv beta iota.
  destruct (btcec.ParsePubKey kb) as [err|k]; [reflexivity|].
  cbn [NextRevocationHash set_NextRevocationKey set_Revocation
       set_ChannelPoint].
  rewrite ReadFull_exact by lia. reflexivity.
Qed.

(** [Encode] of a message with a key: the five runs of bytes written. *)
Lemma Encode_fields (c : RevokeAndAck) (k : btcec.PublicKey) (w : Writer)
  (pver : Z) :
  NextRevocationKey c = Some k ->
  Encode c w pver =
  (None,
   ((((w ++ copy (zeroes 32) (wire.Hash (ChannelPoint c)))
        ++ BigEndian_PutUint32 (wire.Index (ChannelPoint c)))
       ++ Revocation c)
      ++ copy (zeroes 33) (btcec.SerializeCompressed k))
     ++ NextRevocationHash c).
Proof.
  intros Hk. unfold Encode, writeElements, writeElement, Write.
  rewrite Hk. reflexivity.
Qed.

(** A message without a key cannot be encoded. *)
Lemma Encode_nil_key (c : RevokeAndAck) (w : Writer) (pver : Z) :
  NextRevocationKey c = None ->
  exists err w', Encode c w pver = (Some err, w').
Proof.
  intros Hk. unfold Encode, writeElements, writeElement, Write.
  rewrite Hk. eauto.
Qed.

(** The bytes of a well-formed message, and what they decode to. *)
Lemma Decode_Encode_gen (m c : RevokeAndAck) (k : btcec.PublicKey)
  (rest : list byte) (pver pver' : Z) :
  wf_RevokeAndAck m -> wf_RevokeAndAck c ->
  NextRevocationKey m = Some k -> btcec.WellFormed k ->
  exists payload,
    Encode m [] pver = (None, payload) /\
    length payload = 133%nat /\
    Decode c (payload ++ rest) pver' = (None, m, rest).
Proof.
  intros ((Hh & Hi) & Hr & Hn) Hc Hk Hwf.
  destruct (WellFormed_serialize k Hwf) as [Hparse Hlen].
  rewrite (Encode_fields m k [] pver Hk).
  rewrite !copy_full by assumption. cbn [app].
  eexists. split; [reflexivity|]. split.
  - rewrite !length_app, Hh, Hr, Hlen, Hn. reflexivity.
  - rewrite <- !app_assoc.
    rewrite Decode_fields; try assumption; try reflexivity.
    rewrite Hparse. unfold decoded. rewrite Uint32_PutUint32 by assumption.
    destruct m as [[h i] r0 k0 n0]. cbn in *. subst k0. reflexivity.
Qed.

End RevokeAndAckFacts.

(* ================================================================== *)
(** * BreakChannel *)

Section BreakChannelFacts.

Import main.

(** When no channel belongs to the peer the search leaves [opBytes] as it
    was and prints nothing. *)
Lemma find_chan_none (g : globals) (idx : Z) (multis : list Qchan)
  (opBytes : list byte) :
  (forall m, In m multis -> PeerIdx m <> idx) ->
  find_chan g idx multis opBytes = ([], opBytes).
Proof.
  induction multis as [|m rest IH]; intros Hno; cbn [find_chan].
  - reflexivity.
  - destruct (Z.eqb_spec (PeerIdx m) idx) as [Heq|Hne].
    + exfalso. apply (Hno m); [left; reflexivity|exact Heq].
    + apply IH. intros m' Hin. apply Hno. right. exact Hin.
Qed.

(** With a channel of the peer the call prints it and returns nil; without
    a connection it panics at once. *)
Example BreakChannel_with_channel :
  BreakChannel samples.globals1 []
  = ([Printf "peerIdx %d multIdx %d height %d %s amt: %d\n"
        [ArgInt 1; ArgInt 3; ArgInt 101;
         ArgOutPoint {| wire.Hash := samples.nh0; wire.Index := 1 |};
         ArgInt 70000]],
     Returned None).
Proof. reflexivity. Qed.

End BreakChannelFacts.

(* ================================================================== *)
(** * OmniHandler and LNDCReceiver *)

Section DispatchFacts.

Import main.

Context {W : Type} (ids : uwire) (h : handlers W).

(** A frame of at least 17 bytes is its first 16 bytes, the byte at
    offset 16 and the bytes from offset 17 on. *)
Lemma frame_split (newdata : list byte) :
  (17 <= length newdata)%nat ->
  newdata = firstn 16 newdata ++ nth 16 newdata x00 :: skipn 17 newdata.
Proof.
  intros Hlen.
  rewrite <- (firstn_skipn 16 newdata) at 1. f_equal.
  assert (Hs : (1 <= length (skipn 16 newdata))%nat)
    by (rewrite length_skipn; lia).
  rewrite <- (firstn_skipn 16 newdata) at 2.
  rewrite app_nth2 by (rewrite length_firstn; lia).
  rewrite length_firstn, Nat.min_l by lia. rewrite Nat.sub_diag.
  change 17%nat with (1 + 16)%nat. rewrite <- skipn_skipn.
  destruct (skipn 16 newdata) as [|b l]; [cbn in Hs; lia|reflexivity].
Qed.

Lemma copy_from (from peer : list byte) :
  length from = 16%nat -> length peer = 16%nat -> copy from peer = peer.
Proof.
  intros Hf Hp. unfold copy. rewrite Hf, Hp.
  rewrite firstn_all2 by lia. rewrite skipn_all2 by lia. apply app_nil_r.
Qed.

(** The iteration on a frame of at least 17 bytes, with its three parts
    named. *)
Lemma iteration_long (peer : list byte) (msgid : byte) (payload from : list byte)
  (w : W) :
  length peer = 16%nat ->
  OmniHandler_iteration ids h (peer ++ msgid :: payload) from w =
  let from := copy from peer in
  if Byte.eqb msgid (MSGID_TEXTCHAT ids)
  then ([Printf "text from %x: %s\n" [ArgBytes from; ArgBytes payload]],
        Returned (from, w))
  else if Byte.eqb msgid (MSGID_PUBREQ ids)
  then ([Printf "got pubkey req from %x\n" [ArgBytes from];
         Call_PubReqHandler from],
        Returned (from, PubReqHandler h from w))
  else if Byte.eqb msgid (MSGID_PUBRESP ids)
  then ([Printf "got pubkey response from %x\n" [ArgBytes from];
         Call_PubRespHandler from payload],
        Returned (from, PubRespHandler h from payload w))
  else if Byte.eqb msgid (MSGID_MULTIDESC ids)
  then ([Printf "Got multisig description from %x\n" [ArgBytes from];
         Call_QChanDescHandler from payload],
        Returned (from, QChanDescHandler h from payload w))
  else if Byte.eqb msgid (MSGID_MULTIACK ids)
  then ([Printf "Got multisig ack from %x\n" [ArgBytes from];
         Call_QChanAckHandler from payload],
        Returned (from, QChanAckHandler h from payload w))
  else if Byte.eqb msgid (MSGID_CLOSEREQ ids)
  then ([Printf "Got close request from %x\n" [ArgBytes from];
         Call_CloseReqHandler from payload],
        Returned (from, CloseReqHandler h from payload w))
  else if Byte.eqb msgid (MSGID_CLOSERESP ids)
  then ([Printf "Got close response from %x\n" [ArgBytes from];
         Call_CloseRespHandler from payload],
        Returned (from, CloseRespHandler h from payload w))
  else ([Printf "Unknown message id byte %x" [ArgByte msgid]],
        Returned (from, w)).
Proof.
  intros Hp. unfold OmniHandler_iteration.
  replace (length (peer ++ msgid :: payload) <? 17)%nat with false
    by (symmetry; apply Nat.ltb_ge; rewrite length_app; cbn; lia).
  cbv iota.
  replace (firstn 16 (peer ++ msgid :: payload)) with peer
    by (rewrite <- Hp, firstn_length_app; reflexivity).
  replace (skipn 16 (peer ++ msgid :: payload)) with (msgid :: payload)
    by (rewrite <- Hp, skipn_length_app; reflexivity).
  reflexivity.
Qed.

Lemma eqb_neq (a b : byte) : a <> b -> Byte.eqb a b = false.
Proof.
  intros Hne. destruct (Byte.eqb a b) eqn:E; [|reflexivity].
  exfalso. apply Hne. apply Byte.byte_dec_bl. exact E.
Qed.

Lemma eqb_eq (a b : byte) : Byte.eqb a b = true -> a = b.
Proof. apply Byte.byte_dec_bl. Qed.

(** The frames sent are the reads, each behind the 16 bytes of [id]. *)
Lemma LNDCReceiver_loop_sent (reads : list (error + list byte))
  (close : option error) (id : list byte) :
  sent (events_of (LNDCReceiver_loop reads close id))
  = map (fun data => id ++ firstn read_buffer data) (delivered reads).
Proof.
  unfold events_of.
  induction reads as [|[err|data] rest IH]; cbn [LNDCReceiver_loop delivered map].
  - reflexivity.
  - reflexivity.
  - destruct (LNDCReceiver_loop rest close id) as [[out' res]|out'];
      unfold sent in *; cbn [flat_map app]; rewrite IH; reflexivity.
Qed.

End DispatchFacts.

Section Runs.

Import main.

(** A run of the dispatcher on three frames: one too short, a pubkey
    response, one of an unknown id; one handler is called. *)
Example OmniHandler_run :
  OmniHandler samples.ids0 samples.counting
    [ [x31; xaa];
      samples.peer0 ++ [x31; xaa; xbb];
      samples.peer0 ++ [xee] ] 0%nat
  = ([ Printf "got too short message" [];
       Printf "got pubkey response from %x\n" [ArgBytes samples.peer0];
       Call_PubRespHandler samples.peer0 [xaa; xbb];
       Printf "Unknown message id byte %x" [ArgByte xee] ],
     1%nat, Blocked).
Proof. reflexivity. Qed.

(** A run of the receiver: two frames are sent, then the read error ends
    the call with the answer of [Close]. *)
Example LNDCReceiver_run :
  LNDCReceiver samples.globals0 samples.conn0 samples.peer0
  = inl ([ Printf "incoming msg %x\n" [ArgBytes (samples.peer0 ++ [x30])];
           Send_OmniChan (samples.peer0 ++ [x30]);
           Printf "incoming msg %x\n"
             [ArgBytes (samples.peer0 ++ [x31; xaa; xbb])];
           Send_OmniChan (samples.peer0 ++ [x31; xaa; xbb]);
           Printf "read error with %x: %s\n"
             [ArgBytes samples.peer0; ArgError io_EOF] ],
         Returned None).
Proof. vm_compute. reflexivity. Qed.

End Runs.

(* ================================================================== *)
(** * The properties of RevokeAndAck *)

Section RevokeAndAckClaims.


Lemma length_slice (l : list byte) (off n : nat) :
  (off + n <= length l)%nat -> length (slice l off n) = n.
Proof.
  intros H. unfold slice. rewrite length_firstn, length_skipn. lia.
Qed.

Lemma slice_skipn (l : list byte) (off n : nat) :
  slice l off n ++ skipn (off + n) l = skipn off l.
Proof.
  unfold slice. rewrite Nat.add_comm, <- skipn_skipn. apply firstn_skipn.
Qed.

(** [Decode] on a stream that holds a whole payload, by the offsets of
    the fields. *)
Lemma Decode_at_offsets (c : RevokeAndAck) (payload : list byte)
  (pver : Z) :
  wf_RevokeAndAck c -> (133 <= length payload)%nat ->
  Decode c payload pver =
  match btcec.ParsePubKey (slice payload 68 33) with
  | inr k =>
      (None,
       decoded (slice payload 0 32) (slice payload 32 4)
         (slice payload 36 32) k (slice payload 101 32),
       skipn 133 payload)
  | inl err =>
      (Some err,
       partly_decoded c (slice payload 0 32) (slice payload 32 4)
         (slice payload 36 32),
       skipn 101 payload)
  end.
Proof.
  intros Hc Hlen.
  pose proof (Decode_fields c (slice payload 0 32) (slice payload 32 4)
                (slice payload 36 32) (slice payload 68 33)
                (slice payload 101 32) (skipn 133 payload) pver Hc) as H.
  rewrite !length_slice in H by lia.
  specialize (H eq_refl eq_refl eq_refl eq_refl eq_refl).
  assert (E5 : slice payload 101 32 ++ skipn 133 payload = skipn 101 payload)
    by exact (slice_skipn payload 101 32).
  assert (E4 : slice payload 68 33 ++ skipn 101 payload = skipn 68 payload)
    by exact (slice_skipn payload 68 33).
  assert (E3 : slice payload 36 32 ++ skipn 68 payload = skipn 36 payload)
    by exact (slice_skipn payload 36 32).
  assert (E2 : slice payload 32 4 ++ skipn 36 payload = skipn 32 payload)
    by exact (slice_skipn payload 32 4).
  assert (E1 : slice payload 0 32 ++ skipn 32 payload = payload)
    by exact (slice_skipn payload 0 32).
  rewrite E5, E4, E3, E2, E1 in H. exact H.
Qed.

(** The compressed form of the generator parses to the generator. *)
Lemma ParsePubKey_G : btcec.ParsePubKey samples.G_bytes = inr samples.G.
Proof. vm_compute. reflexivity. Qed.

(** The sample message encodes to the sample payload, of 133 bytes. *)
Example Encode_msg0 :
  Encode samples.msg0 [] 0 = (None, samples.payload0) /\
  length samples.payload0 = 133%nat.
Proof. split; vm_compute; reflexivity. Qed.

Lemma bytes_Equal_eq (a b : list byte) :
  channel.bytes_Equal a b = true -> a = b.
Proof.
  revert b. induction a as [|x a IH]; intros [|y b] H;
    cbn [channel.bytes_Equal] in H; try discriminate H.
  - reflexivity.
  - apply andb_true_iff in H. destruct H as [Hxy Hab].
    apply Byte.byte_dec_bl in Hxy. subst y. f_equal. apply IH. exact Hab.
Qed.

Lemma wf_NewRevokeAndAck : wf_RevokeAndAck NewRevokeAndAck.
Proof. repeat split; cbn; lia. Qed.

End RevokeAndAckClaims.


(** C1.  On a stream of fewer than 133 bytes, so on every truncation of a
    payload, [Decode] returns an error.  The call acts on its reader and its
    receiver only, which are its arguments and its results here: there is no
    channel state within its reach. *)
Theorem Decode_truncated_fails (c : RevokeAndAck) (r : Reader) (pver : Z) :
  wf_RevokeAndAck c -> (length r < 133)%nat ->
  exists err c' r', Decode c r pver = (Some err, c', r').
Proof.
  intros (_ & Hrev & Hnh) Hlen.
  unfold Decode, readElements, readElement.
  (* the hash of the outpoint *)
  destruct (Nat.lt_ge_cases (length r) 32) as [Hs|Hs].
  { destruct (ReadFull_short r (zeroes 32)) as (e & b & r' & -> & _);
      [rewrite length_zeroes; lia|eauto]. }
  rewrite ReadFull_enough by (rewrite length_zeroes; lia).
  rewrite length_zeroes. cbv beta iota.
  pose proof (length_skipn 32 r) as L1. set (r1 := skipn 32 r) in *.
  (* the index of the outpoint *)
  destruct (Nat.lt_ge_cases (length r1) 4) as [Hs1|Hs1].
  { destruct (ReadFull_short r1 (zeroes 4)) as (e & b & r' & -> & _);
      [rewrite length_zeroes; lia|eauto]. }
  rewrite ReadFull_enough by (rewrite length_zeroes; lia).
  rewrite length_zeroes. cbv beta iota.
  pose proof (length_skipn 4 r1) as L2. set (r2 := skipn 4 r1) in *.
  cbn [Revocation set_ChannelPoint].
  (* the revocation *)
  destruct (Nat.lt_ge_cases (length r2) 32) as [Hs2|Hs2].
  { destruct (ReadFull_short r2 (Revocation c)) as (e & b & r' & -> & _);
      [lia|eauto]. }
  rewrite ReadFull_enough by lia. rewrite Hrev. cbv beta iota.
  pose proof (length_skipn 32 r2) as L3. set (r3 := skipn 32 r2) in *.
  (* the key *)
  unfold btcec.PubKeyBytesLenCompressed.
  destruct (Nat.lt_ge_cases (length r3) 33) as [Hs3|Hs3].
  { destruct (ReadFull_short r3 (zeroes 33)) as (e & b & r' & -> & _);
      [rewrite length_zeroes; lia|eauto]. }
  rewrite ReadFull_enough by (rewrite length_zeroes; lia).
  rewrite length_zeroes. cbv beta iota.
  pose proof (length_skipn 33 r3) as L4. set (r4 := skipn 33 r3) in *.
  destruct (btcec.ParsePubKey (firstn 33 r3)) as [err|k]; [eauto|].
  cbn [NextRevocationHash set_NextRevocationKey set_Revocation
       set_ChannelPoint].
  (* the next revocation hash: too few bytes are left *)
  destruct (ReadFull_short r4 (NextRevocationHash c)) as (e & b & r' & -> & _);
    [lia|eauto].
Qed.

Lemma Decode_truncated_fails_witness :
  wf_RevokeAndAck NewRevokeAndAck /\
  (length (firstn 40 samples.payload0) < 133)%nat /\
  exists err c' r',
    Decode NewRevokeAndAck (firstn 40 samples.payload0) 0 = (Some err, c', r').
Proof.
  assert (Hc : wf_RevokeAndAck NewRevokeAndAck) by (repeat split; cbn; lia).
  assert (Hl : (length (firstn 40 samples.payload0) < 133)%nat) by (vm_compute; lia).
  split; [exact Hc|]. split; [exact Hl|].
  exact (Decode_truncated_fails NewRevokeAndAck (firstn 40 samples.payload0) 0
           Hc Hl).
Defined.

(** C2.  [MaxPayloadLength] is 133 whatever the protocol version, the sum
    36 + 32 + 33 + 32 of the widths of the four fields. *)
Theorem MaxPayloadLength_133 (c : RevokeAndAck) (pver : Z) :
  MaxPayloadLength c pver = 133 /\
  MaxPayloadLength c pver = 36 + 32 + 33 + 32.
Proof. split; reflexivity. Qed.

(** C3, as amended.  [Validate] returns nil for every RevokeAndAck: it checks
    no field. *)
Theorem Validate_returns_nil (c : RevokeAndAck) : Validate c = None.
Proof. reflexivity. Qed.

(** C3, the claim as stated fails: no RevokeAndAck makes [Validate] return
    an error; the zero message, with a zero channel point and a nil key, is
    accepted. *)
Lemma Validate_rejects_nothing :
  Validate NewRevokeAndAck = None /\
  ~ (exists c : RevokeAndAck, Validate c <> None).
Proof.
  split; [reflexivity|].
  intros [c Hc]. apply Hc. reflexivity.
Qed.

(** C4.  A message with a well-formed key encodes, and its bytes decode to
    the message itself, into any receiver, using up the stream. *)
Theorem Decode_after_Encode (m c : RevokeAndAck) (k : btcec.PublicKey)
  (pver : Z) :
  wf_RevokeAndAck m -> wf_RevokeAndAck c ->
  NextRevocationKey m = Some k -> btcec.WellFormed k ->
  exists payload,
    Encode m [] pver = (None, payload) /\
    Decode c payload pver = (None, m, []).
Proof.
  intros Hm Hc Hk Hwf.
  destruct (Decode_Encode_gen m c k [] pver pver Hm Hc Hk Hwf)
    as (payload & He & _ & Hd).
  exists payload. rewrite app_nil_r in Hd. split; assumption.
Qed.

Lemma Decode_after_Encode_witness :
  wf_RevokeAndAck samples.msg0 /\ wf_RevokeAndAck NewRevokeAndAck /\
  NextRevocationKey samples.msg0 = Some samples.G /\
  btcec.WellFormed samples.G /\
  exists payload,
    Encode samples.msg0 [] 0 = (None, payload) /\
    Decode NewRevokeAndAck payload 0 = (None, samples.msg0, []).
Proof.
  assert (Hm : wf_RevokeAndAck samples.msg0) by (repeat split; cbn; lia).
  assert (Hc : wf_RevokeAndAck NewRevokeAndAck) by (repeat split; cbn; lia).
  assert (Hk : NextRevocationKey samples.msg0 = Some samples.G) by reflexivity.
  assert (Hwf : btcec.WellFormed samples.G)
    by (exists samples.G_bytes; exact ParsePubKey_G).
  split; [exact Hm|]. split; [exact Hc|]. split; [exact Hk|].
  split; [exact Hwf|].
  exact (Decode_after_Encode samples.msg0 NewRevokeAndAck samples.G 0
           Hm Hc Hk Hwf).
Defined.

(** C6.  A complete payload whose revocation bytes are all zero, with a key
    that parses, is accepted by [Decode]: the message read is the one whose
    fields are the bytes of the payload, with the all-zero revocation as it
    is, and [Validate] returns nil for it.  That revocation is the seed of the
    initial revocation window, not a secret: receiving the message gives the
    same channel whatever the hash function is, leaves the state of the
    channel as it was, so never breaches it, and, unless the channel is
    breached already, adds the next key and the next hash of the message to
    the queue of unused revocations.  Any other revocation is a secret, whose
    hash is checked: one that does not hash to the committed value breaches
    the channel. *)
Theorem zero_Revocation_is_window_seed (hash hash' : list byte -> list byte)
  (c : RevokeAndAck) (payload : list byte) (k : btcec.PublicKey) (pver : Z)
  (ch : channel.Channel) :
  wf_RevokeAndAck c -> length payload = 133%nat ->
  slice payload 36 32 = zeroes 32 ->
  btcec.ParsePubKey (slice payload 68 33) = inr k ->
  let m := decoded (slice payload 0 32) (slice payload 32 4) (zeroes 32) k
             (slice payload 101 32) in
  Decode c payload pver = (None, m, []) /\
  Validate m = None /\
  channel.revocation_value (Revocation m) = channel.InitialWindowSeed /\
  channel.revocation_received hash ch m
  = channel.revocation_received hash' ch m /\
  channel.state (channel.revocation_received hash ch m) = channel.state ch /\
  (channel.state ch <> channel.Breached ->
   channel.window (channel.revocation_received hash ch m)
   = channel.window ch ++ [(Some k, slice payload 101 32)]) /\
  (forall rev,
     rev <> zeroes 32 -> hash rev <> channel.committed ch ->
     channel.state ch <> channel.Breached ->
     channel.revocation_value rev = channel.Secret rev /\
     channel.state (channel.revocation_received hash ch (set_Revocation rev m))
     = channel.Breached).
Proof.
  intros Hc Hlen Hz Hk m.
  pose proof (Decode_at_offsets c payload pver Hc) as H.
  specialize (H ltac:(lia)).
  rewrite Hk, Hz in H.
  rewrite skipn_all2 in H by lia.
  split; [exact H|]. split; [reflexivity|].
  assert (Hseed : channel.revocation_value (Revocation m)
                  = channel.InitialWindowSeed) by reflexivity.
  split; [exact Hseed|].
  destruct ch as [st cm wn].
  unfold channel.revocation_received.
  cbn [channel.state channel.committed channel.window]. rewrite Hseed.
  split; [destruct st; reflexivity|].
  split; [destruct st; reflexivity|].
  split; [destruct st; try reflexivity; intros Hst; contradiction|].
  intros rev Hrev Hhash Hst.
  assert (Hsecret : channel.revocation_value rev = channel.Secret rev).
  { unfold channel.revocation_value.
    destruct (channel.bytes_Equal rev (zeroes 32)) eqn:E; [|reflexivity].
    apply bytes_Equal_eq in E. contradiction. }
  split; [exact Hsecret|].
  cbn [Revocation set_Revocation]. rewrite Hsecret.
  replace (channel.bytes_Equal (hash rev) cm) with false.
  - destruct st; try reflexivity; contradiction.
  - symmetry. destruct (channel.bytes_Equal (hash rev) cm) eqn:E;
      [|reflexivity].
    apply bytes_Equal_eq in E. contradiction.
Qed.

Lemma zero_Revocation_is_window_seed_witness :
  wf_RevokeAndAck NewRevokeAndAck /\
  length samples.payload_irw = 133%nat /\
  slice samples.payload_irw 36 32 = zeroes 32 /\
  btcec.ParsePubKey (slice samples.payload_irw 68 33) = inr samples.G /\
  let m := decoded (slice samples.payload_irw 0 32)
             (slice samples.payload_irw 32 4) (zeroes 32) samples.G
             (slice samples.payload_irw 101 32) in
  Decode NewRevokeAndAck samples.payload_irw 0 = (None, m, []) /\
  Validate m = None /\
  channel.revocation_value (Revocation m) = channel.InitialWindowSeed /\
  channel.revocation_received samples.hash_a samples.channel0 m
  = channel.revocation_received samples.hash_b samples.channel0 m /\
  channel.state (channel.revocation_received samples.hash_a samples.channel0 m)
  = channel.state samples.channel0 /\
  (channel.state samples.channel0 <> channel.Breached ->
   channel.window
     (channel.revocation_received samples.hash_a samples.channel0 m)
   = channel.window samples.channel0
       ++ [(Some samples.G, slice samples.payload_irw 101 32)]) /\
  (forall rev,
     rev <> zeroes 32 ->
     samples.hash_a rev <> channel.committed samples.channel0 ->
     channel.state samples.channel0 <> channel.Breached ->
     channel.revocation_value rev = channel.Secret rev /\
     channel.state
       (channel.revocation_received samples.hash_a samples.channel0
          (set_Revocation rev m))
     = channel.Breached).
Proof.
  assert (Hc : wf_RevokeAndAck NewRevokeAndAck) by (repeat split; cbn; lia).
  assert (Hl : length samples.payload_irw = 133%nat) by reflexivity.
  assert (Hz : slice samples.payload_irw 36 32 = zeroes 32) by reflexivity.
  assert (Hk : btcec.ParsePubKey (slice samples.payload_irw 68 33)
               = inr samples.G).
  { replace (slice samples.payload_irw 68 33) with samples.G_bytes
      by (vm_compute; reflexivity).
    exact ParsePubKey_G. }
  split; [exact Hc|]. split; [exact Hl|]. split; [exact Hz|].
  split; [exact Hk|].
  exact (zero_Revocation_is_window_seed samples.hash_a samples.hash_b
           NewRevokeAndAck samples.payload_irw samples.G 0 samples.channel0
           Hc Hl Hz Hk).
Defined.

(* ================================================================== *)
(** * The properties of the dispatcher *)


(** C7.  A frame shorter than 17 bytes is dropped: the iteration prints
    "got too short message" and does nothing else, no handler is called, [from]
    and the state of the process are as before, and the loop goes on with the
    frames that follow. *)
Theorem OmniHandler_short_frame_dropped (W : Type) (ids : uwire)
  (h : handlers W) (newdata : list byte) (rest : list (list byte))
  (from : list byte) (w : W) :
  (length newdata < 17)%nat ->
  OmniHandler_iteration ids h newdata from w
  = ([Printf "got too short message" []], Returned (from, w)) /\
  OmniHandler_loop ids h (newdata :: rest) from w
  = (let '(out, w', st) := OmniHandler_loop ids h rest from w in
     (Printf "got too short message" [] :: out, w', st)).
Proof.
  intros Hlen.
  assert (Hit : OmniHandler_iteration ids h newdata from w
                = ([Printf "got too short message" []], Returned (from, w))).
  { unfold OmniHandler_iteration.
    replace (length newdata <? 17)%nat with true
      by (symmetry; apply Nat.ltb_lt; exact Hlen).
    reflexivity. }
  split; [exact Hit|].
  cbn [OmniHandler_loop]. rewrite Hit.
  destruct (OmniHandler_loop ids h rest from w) as [[out w'] st].
  reflexivity.
Qed.

Lemma OmniHandler_short_frame_dropped_witness :
  (length [x30; x31; x32] < 17)%nat /\
  OmniHandler_iteration samples.ids0 samples.counting [x30; x31; x32]
    samples.peer0 7%nat
  = ([Printf "got too short message" []], Returned (samples.peer0, 7%nat)) /\
  OmniHandler_loop samples.ids0 samples.counting
    ([x30; x31; x32] :: [samples.peer0 ++ [x30]]) samples.peer0 7%nat
  = (let '(out, w', st) :=
       OmniHandler_loop samples.ids0 samples.counting
         [samples.peer0 ++ [x30]] samples.peer0 7%nat in
     (Printf "got too short message" [] :: out, w', st)).
Proof.
  assert (Hl : (length [x30; x31; x32] < 17)%nat) by (vm_compute; lia).
  split; [exact Hl|].
  exact (OmniHandler_short_frame_dropped nat samples.ids0 samples.counting
           [x30; x31; x32] [samples.peer0 ++ [x30]] samples.peer0 7%nat Hl).
Defined.

(** C8.  A frame of at least 17 bytes whose byte at offset 16 is none of the
    known ids is dropped: the iteration prints the unknown id and does nothing
    else, no handler is called, the state of the process is as before, and the
    loop goes on with the frames that follow. *)
Theorem OmniHandler_unknown_id_dropped (W : Type) (ids : uwire)
  (h : handlers W) (newdata : list byte) (rest : list (list byte))
  (from : list byte) (w : W) :
  (17 <= length newdata)%nat ->
  ~ In (nth 16 newdata x00) (known_ids ids) ->
  OmniHandler_iteration ids h newdata from w
  = ([Printf "Unknown message id byte %x" [ArgByte (nth 16 newdata x00)]],
     Returned (copy from (firstn 16 newdata), w)) /\
  OmniHandler_loop ids h (newdata :: rest) from w
  = (let '(out, w', st) :=
       OmniHandler_loop ids h rest (copy from (firstn 16 newdata)) w in
     (Printf "Unknown message id byte %x" [ArgByte (nth 16 newdata x00)] :: out,
      w', st)).
Proof.
  intros Hlen Hunk.
  assert (Hit : OmniHandler_iteration ids h newdata from w
                = ([Printf "Unknown message id byte %x"
                      [ArgByte (nth 16 newdata x00)]],
                   Returned (copy from (firstn 16 newdata), w))).
  { rewrite (frame_split newdata Hlen) at 1.
    rewrite iteration_long by (rewrite length_firstn; lia).
    cbv zeta. unfold known_ids in Hunk. cbn [In] in Hunk.
    rewrite !eqb_neq by (intros E; apply Hunk; rewrite E; tauto).
    reflexivity. }
  split; [exact Hit|].
  cbn [OmniHandler_loop]. rewrite Hit.
  destruct (OmniHandler_loop ids h rest (copy from (firstn 16 newdata)) w)
    as [[out w'] st].
  reflexivity.
Qed.

Lemma OmniHandler_unknown_id_dropped_witness :
  (17 <= length (samples.peer0 ++ [xee; x01]))%nat /\
  ~ In (nth 16 (samples.peer0 ++ [xee; x01]) x00) (known_ids samples.ids0) /\
  OmniHandler_iteration samples.ids0 samples.counting
    (samples.peer0 ++ [xee; x01]) (zeroes 16) 7%nat
  = ([Printf "Unknown message id byte %x"
        [ArgByte (nth 16 (samples.peer0 ++ [xee; x01]) x00)]],
     Returned (copy (zeroes 16) (firstn 16 (samples.peer0 ++ [xee; x01])),
               7%nat)) /\
  OmniHandler_loop samples.ids0 samples.counting
    ((samples.peer0 ++ [xee; x01]) :: []) (zeroes 16) 7%nat
  = (let '(out, w', st) :=
       OmniHandler_loop samples.ids0 samples.counting []
         (copy (zeroes 16) (firstn 16 (samples.peer0 ++ [xee; x01]))) 7%nat in
     (Printf "Unknown message id byte %x"
        [ArgByte (nth 16 (samples.peer0 ++ [xee; x01]) x00)] :: out,
      w', st)).
Proof.
  assert (Hl : (17 <= length (samples.peer0 ++ [xee; x01]))%nat)
    by (vm_compute; lia).
  assert (Hu : ~ In (nth 16 (samples.peer0 ++ [xee; x01]) x00)
                 (known_ids samples.ids0))
    by (vm_compute; intuition discriminate).
  split; [exact Hl|]. split; [exact Hu|].
  exact (OmniHandler_unknown_id_dropped nat samples.ids0 samples.counting
           (samples.peer0 ++ [xee; x01]) [] (zeroes 16) 7%nat Hl Hu).
Defined.

(** C9, as amended.  [LNDCReceiver] sends each message it reads behind the 16
    bytes of the connection id; [OmniHandler] takes the first 16 bytes of a
    frame as the sender, the byte at offset 16 as the message id, and calls at
    most one handler, the one of that id, with the sender and the bytes from
    offset 17 on; the handler of a pubkey request is called with the sender
    alone, and a text message is printed, with no handler called. *)
Theorem envelope_dispatch (W : Type) (ids : uwire) (h : handlers W)
  (g : globals) (l : Conn) (id : list byte) (remoteCon : LNDConn) (known : bool)
  (peer : list byte) (msgid : byte) (payload from : list byte) (w : W) :
  RemoteCon g = Some remoteCon ->
  NewPeer g (RemotePub remoteCon) = inr known ->
  length peer = 16%nat -> length from = 16%nat ->
  sent (events_of (LNDCReceiver g l id))
  = map (fun data => id ++ firstn read_buffer data) (delivered (Read l)) /\
  exists out w',
    OmniHandler_iteration ids h (peer ++ msgid :: payload) from w
    = (out, Returned (peer, w')) /\
    (forall e, In e out -> is_call e = true ->
       (e = Call_PubReqHandler peer /\ msgid = MSGID_PUBREQ ids) \/
       (e = Call_PubRespHandler peer payload /\ msgid = MSGID_PUBRESP ids) \/
       (e = Call_QChanDescHandler peer payload /\ msgid = MSGID_MULTIDESC ids) \/
       (e = Call_QChanAckHandler peer payload /\ msgid = MSGID_MULTIACK ids) \/
       (e = Call_CloseReqHandler peer payload /\ msgid = MSGID_CLOSEREQ ids) \/
       (e = Call_CloseRespHandler peer payload /\ msgid = MSGID_CLOSERESP ids)) /\
    (length (filter is_call out) <= 1)%nat /\
    (In msgid (known_ids ids) -> msgid <> MSGID_TEXTCHAT ids ->
     length (filter is_call out) = 1%nat) /\
    (msgid = MSGID_TEXTCHAT ids ->
     out = [Printf "text from %x: %s\n" [ArgBytes peer; ArgBytes payload]]).
Proof.
  intros Hrc Hnp Hpeer Hfrom. split.
  - unfold LNDCReceiver. rewrite Hrc, Hnp. apply LNDCReceiver_loop_sent.
  - rewrite iteration_long by exact Hpeer. cbv zeta.
    rewrite (copy_from from peer Hfrom Hpeer).
    unfold known_ids. cbn [In].
    destruct (Byte.eqb msgid (MSGID_TEXTCHAT ids)) eqn:E1;
      [|destruct (Byte.eqb msgid (MSGID_PUBREQ ids)) eqn:E2;
        [|destruct (Byte.eqb msgid (MSGID_PUBRESP ids)) eqn:E3;
          [|destruct (Byte.eqb msgid (MSGID_MULTIDESC ids)) eqn:E4;
            [|destruct (Byte.eqb msgid (MSGID_MULTIACK ids)) eqn:E5;
              [|destruct (Byte.eqb msgid (MSGID_CLOSEREQ ids)) eqn:E6;
                [|destruct (Byte.eqb msgid (MSGID_CLOSERESP ids)) eqn:E7]]]]]];
      repeat match goal with
             | E : Byte.eqb _ _ = true |- _ => apply eqb_eq in E
             | E : Byte.eqb _ _ = false |- _ => apply Byte.eqb_false in E
             end;
      (eexists; eexists; split; [reflexivity|]);
      (split;
       [ intros e He Hcall; cbn [In] in He;
         repeat match goal with
                | H : _ \/ _ |- _ => destruct H
                | H : False |- _ => destruct H
                end; subst e; try discriminate Hcall; tauto
       | split; [cbn; lia|];
         split; [ intros Hin Hnt; try reflexivity;
                  exfalso; intuition congruence
                | intros Ht; first [reflexivity | congruence] ] ]).
Qed.

Lemma envelope_dispatch_witness :
  RemoteCon samples.globals0 = Some {| RemotePub := samples.G_bytes |} /\
  NewPeer samples.globals0 (RemotePub {| RemotePub := samples.G_bytes |})
  = inr true /\
  length samples.peer0 = 16%nat /\ length (zeroes 16) = 16%nat /\
  sent (events_of (LNDCReceiver samples.globals0 samples.conn0 samples.peer0))
  = map (fun data => samples.peer0 ++ firstn read_buffer data)
      (delivered (Read samples.conn0)) /\
  exists out w',
    OmniHandler_iteration samples.ids0 samples.counting
      (samples.peer0 ++ x31 :: [xaa; xbb]) (zeroes 16) 7%nat
    = (out, Returned (samples.peer0, w')) /\
    (forall e, In e out -> is_call e = true ->
       (e = Call_PubReqHandler samples.peer0 /\
        x31 = MSGID_PUBREQ samples.ids0) \/
       (e = Call_PubRespHandler samples.peer0 [xaa; xbb] /\
        x31 = MSGID_PUBRESP samples.ids0) \/
       (e = Call_QChanDescHandler samples.peer0 [xaa; xbb] /\
        x31 = MSGID_MULTIDESC samples.ids0) \/
       (e = Call_QChanAckHandler samples.peer0 [xaa; xbb] /\
        x31 = MSGID_MULTIACK samples.ids0) \/
       (e = Call_CloseReqHandler samples.peer0 [xaa; xbb] /\
        x31 = MSGID_CLOSEREQ samples.ids0) \/
       (e = Call_CloseRespHandler samples.peer0 [xaa; xbb] /\
        x31 = MSGID_CLOSERESP samples.ids0)) /\
    (length (filter is_call out) <= 1)%nat /\
    (In x31 (known_ids samples.ids0) -> x31 <> MSGID_TEXTCHAT samples.ids0 ->
     length (filter is_call out) = 1%nat) /\
    (x31 = MSGID_TEXTCHAT samples.ids0 ->
     out = [Printf "text from %x: %s\n"
              [ArgBytes samples.peer0; ArgBytes [xaa; xbb]]]).
Proof.
  assert (H1 : RemoteCon samples.globals0
               = Some {| RemotePub := samples.G_bytes |}) by reflexivity.
  assert (H2 : NewPeer samples.globals0
                 (RemotePub {| RemotePub := samples.G_bytes |}) = inr true)
    by reflexivity.
  assert (H3 : length samples.peer0 = 16%nat) by reflexivity.
  assert (H4 : length (zeroes 16) = 16%nat) by reflexivity.
  split; [exact H1|]. split; [exact H2|]. split; [exact H3|].
  split; [exact H4|].
  exact (envelope_dispatch nat samples.ids0 samples.counting samples.globals0
           samples.conn0 samples.peer0 _ true samples.peer0 x31 [xaa; xbb]
           (zeroes 16) 7%nat H1 H2 H3 H4).
Defined.

(** C9, the claim as stated fails: on a pubkey request that carries two more
    bytes the handler that is called, [PubReqHandler], is given the sender
    only, not the remaining bytes of the frame. *)
Lemma PubReqHandler_gets_no_payload :
  exists out w',
    OmniHandler_iteration samples.ids0 samples.counting
      (samples.peer0 ++ MSGID_PUBREQ samples.ids0 :: [xaa; xbb])
      (zeroes 16) 7%nat
    = (out, Returned (samples.peer0, w')) /\
    filter is_call out = [Call_PubReqHandler samples.peer0] /\
    forall e, In e out -> payload_of e <> Some [xaa; xbb].
Proof.
  eexists. eexists. split; [vm_compute; reflexivity|].
  split; [reflexivity|].
  intros e He. cbn [In] in He.
  destruct He as [<-|[<-|[]]]; discriminate.
Qed.

(** C10.  When the peer is connected, both queries succeed and no channel
    belongs to the peer, [BreakChannel] panics at [opBytes[0] = 0x00] on the
    nil slice: it returns neither nil nor an error. *)
Theorem BreakChannel_panics_without_channel (g : globals) (args : list string)
  (remoteCon : LNDConn) (currentPeerIdx : Z) (multis : list Qchan) :
  RemoteCon g = Some remoteCon ->
  GetPeerIdx g (RemotePub remoteCon) = inr currentPeerIdx ->
  GetAllQchans g = inr multis ->
  (forall m, In m multis -> PeerIdx m <> currentPeerIdx) ->
  BreakChannel g args = ([], Panic "index out of range").
Proof.
  intros Hrc Hidx Hall Hno. unfold BreakChannel.
  rewrite Hrc, Hidx, Hall, (find_chan_none g currentPeerIdx multis [] Hno).
  reflexivity.
Qed.

Lemma BreakChannel_panics_without_channel_witness :
  RemoteCon samples.globals0 = Some {| RemotePub := samples.G_bytes |} /\
  GetPeerIdx samples.globals0 (RemotePub {| RemotePub := samples.G_bytes |})
  = inr 1 /\
  GetAllQchans samples.globals0 = inr [samples.chan2] /\
  (forall m, In m [samples.chan2] -> PeerIdx m <> 1) /\
  BreakChannel samples.globals0 [] = ([], Panic "index out of range").
Proof.
  assert (H1 : RemoteCon samples.globals0
               = Some {| RemotePub := samples.G_bytes |}) by reflexivity.
  assert (H2 : GetPeerIdx samples.globals0
                 (RemotePub {| RemotePub := samples.G_bytes |}) = inr 1)
    by reflexivity.
  assert (H3 : GetAllQchans samples.globals0 = inr [samples.chan2])
    by reflexivity.
  assert (H4 : forall m, In m [samples.chan2] -> PeerIdx m <> 1).
  { intros m [<-|[]]. vm_compute. discriminate. }
  split; [exact H1|]. split; [exact H2|]. split; [exact H3|].
  split; [exact H4|].
  exact (BreakChannel_panics_without_channel samples.globals0 []
           {| RemotePub := samples.G_bytes |} 1 [samples.chan2] H1 H2 H3 H4).
Defined.


(* ================================================================== *)
(** * Further lemmas on bytes, slices and the codec *)

Section MoreByteFacts.

Lemma land_shiftl_low (x y k : Z) :
0 <= k -> 0 <= x < 2 ^ k -> Z.land x (Z.shiftl y k) = 0.
Proof.
intros Hk Hx. apply Z.bits_inj'. intros n Hn.
rewrite Z.land_spec, Z.shiftl_spec, Z.bits_0 by lia.
destruct (Z.lt_ge_cases n k) as [Hlt|Hge].
- rewrite (Z.testbit_neg_r y) by lia. apply andb_false_r.
- destruct (Z.eq_dec x 0) as [->|Hnz]; [rewrite Z.bits_0; reflexivity|].
  rewrite (Z.bits_above_log2 x n); [reflexivity|lia|].
  assert (Z.log2 x < k) by (apply Z.log2_lt_pow2; lia). lia.
Qed.

Lemma lor_shiftl_add (x y k : Z) :
0 <= k -> 0 <= x < 2 ^ k -> Z.lor x (Z.shiftl y k) = x + y * 2 ^ k.
Proof.
intros Hk Hx.
rewrite <- Z.lxor_lor by (apply land_shiftl_low; assumption).
rewrite <- Z.add_nocarry_lxor by (apply land_shiftl_low; assumption).
rewrite Z.shiftl_mul_pow2 by lia. reflexivity.
Qed.

(** [Uint32] is the big-endian value of its four bytes. *)
Lemma Uint32_SetBytes (b0 b1 b2 b3 : byte) :
BigEndian_Uint32 [b0; b1; b2; b3] = SetBytes [b0; b1; b2; b3].
Proof.
unfold BigEndian_Uint32, SetBytes. cbn [fold_left].
pose proof (byte_to_Z_range b0). pose proof (byte_to_Z_range b1).
pose proof (byte_to_Z_range b2). pose proof (byte_to_Z_range b3).
rewrite (lor_shiftl_add (byte_to_Z b3)) by lia.
rewrite (lor_shiftl_add (byte_to_Z b3 + _)) by lia.
rewrite (lor_shiftl_add (byte_to_Z b3 + _ + _)) by lia.
lia.
Qed.

Lemma PutUint32_be_fixed (v : Z) : BigEndian_PutUint32 v = be_fixed 4 v.
Proof.
unfold BigEndian_PutUint32. cbn [be_fixed app].
rewrite !Z.shiftr_shiftr by lia. reflexivity.
Qed.

(** The four bytes of the value of four bytes are those bytes. *)
Lemma PutUint32_Uint32 (b : list byte) :
length b = 4%nat -> BigEndian_PutUint32 (BigEndian_Uint32 b) = b.
Proof.
intros Hb.
destruct b as [|b0 [|b1 [|b2 [|b3 [|? ?]]]]]; try discriminate Hb.
rewrite Uint32_SetBytes, PutUint32_be_fixed.
apply (be_fixed_SetBytes [b0; b1; b2; b3]).
Qed.

Lemma Uint32_range (b : list byte) : 0 <= BigEndian_Uint32 b < 2 ^ 32.
Proof.
destruct b as [|b0 [|b1 [|b2 [|b3 [|? ?]]]]];
  try (cbn [BigEndian_Uint32]; lia).
rewrite Uint32_SetBytes.
exact (SetBytes_range [b0; b1; b2; b3]).
Qed.

Lemma length_copy (dst src : list byte) : length (copy dst src) = length dst.
Proof.
unfold copy. rewrite length_app, length_firstn, length_skipn. lia.
Qed.

Lemma firstn_plus_slice (l : list byte) (a b : nat) :
firstn (a + b) l = firstn a l ++ slice l a b.
Proof.
unfold slice. revert l. induction a as [|a IH]; intros l.
- reflexivity.
- destruct l as [|x l]; cbn [firstn skipn Nat.add app].
  + rewrite firstn_nil. reflexivity.
  + rewrite IH. reflexivity.
Qed.



(** The first 133 bytes of a stream are its five slices. *)
Lemma payload_slices (r : list byte) :
firstn 133 r
= slice r 0 32 ++ slice r 32 4 ++ slice r 36 32 ++ slice r 68 33
    ++ slice r 101 32.
Proof.
change 133%nat with (101 + 32)%nat. rewrite firstn_plus_slice.
change 101%nat with (68 + 33)%nat at 1. rewrite firstn_plus_slice.
change 68%nat with (36 + 32)%nat at 1. rewrite firstn_plus_slice.
change 36%nat with (32 + 4)%nat at 1. rewrite firstn_plus_slice.
rewrite <- !app_assoc. reflexivity.
Qed.

End MoreByteFacts.

Section MoreCodecFacts.

(** [Decode] on a stream shorter than a payload: the error is one of the two
  end-of-stream errors, unless the 33 bytes of the key are there and do not
  parse. *)
Lemma Decode_short_cases (c : RevokeAndAck) (r : Reader) (pver : Z) :
wf_RevokeAndAck c -> (length r < 133)%nat ->
exists err c' r',
  Decode c r pver = (Some err, c', r') /\
  (err = io_EOF \/ err = io_ErrUnexpectedEOF \/
   ((101 <= length r)%nat /\ btcec.ParsePubKey (slice r 68 33) = inl err)).
Proof.
intros (_ & Hrev & Hnh) Hlen.
unfold Decode, readElements, readElement.
destruct (Nat.lt_ge_cases (length r) 32) as [Hs|Hs].
{ destruct (ReadFull_short r (zeroes 32)) as (e & b & r' & -> & He);
    [rewrite length_zeroes; lia|].
  exists e, c, r'. split; [reflexivity|tauto]. }
rewrite ReadFull_enough by (rewrite length_zeroes; lia).
rewrite length_zeroes. cbv beta iota.
destruct (Nat.lt_ge_cases (length (skipn 32 r)) 4) as [Hs1|Hs1].
{ destruct (ReadFull_short (skipn 32 r) (zeroes 4)) as (e & b & r' & -> & He);
    [rewrite length_zeroes; lia|].
  exists e, c, r'. split; [reflexivity|tauto]. }
rewrite ReadFull_enough by (rewrite length_zeroes; lia).
rewrite length_zeroes. cbv beta iota.
rewrite skipn_skipn. change (4 + 32)%nat with 36%nat.
rewrite length_skipn in Hs1.
cbn [Revocation set_ChannelPoint].
destruct (Nat.lt_ge_cases (length (skipn 36 r)) 32) as [Hs2|Hs2].
{ destruct (ReadFull_short (skipn 36 r) (Revocation c))
    as (e & b & r' & -> & He); [lia|].
  eexists e, _, r'. split; [reflexivity|tauto]. }
rewrite ReadFull_enough by lia. rewrite Hrev. cbv beta iota.
rewrite skipn_skipn. change (32 + 36)%nat with 68%nat.
rewrite length_skipn in Hs2.
unfold btcec.PubKeyBytesLenCompressed.
destruct (Nat.lt_ge_cases (length (skipn 68 r)) 33) as [Hs3|Hs3].
{ destruct (ReadFull_short (skipn 68 r) (zeroes 33))
    as (e & b & r' & -> & He); [rewrite length_zeroes; lia|].
  eexists e, _, r'. split; [reflexivity|tauto]. }
rewrite ReadFull_enough by (rewrite length_zeroes; lia).
rewrite length_zeroes. cbv beta iota.
rewrite skipn_skipn. change (33 + 68)%nat with 101%nat.
rewrite length_skipn in Hs3.
change (firstn 33 (skipn 68 r)) with (slice r 68 33).
destruct (btcec.ParsePubKey (slice r 68 33)) as [err|k] eqn:Hk.
{ eexists err, _, _. split; [reflexivity|].
  right. right. split; [lia|reflexivity]. }
cbn [NextRevocationHash set_NextRevocationKey set_Revocation
     set_ChannelPoint].
destruct (ReadFull_short (skipn 101 r) (NextRevocationHash c))
  as (e & b & r' & -> & He); [rewrite length_skipn; lia|].
eexists e, _, r'. split; [reflexivity|tauto].
Qed.

(** What a successful [Decode] tells: the stream held a whole payload, its
  key bytes parse, and the message and the rest are those of the layout. *)
Lemma Decode_ok_inv (c : RevokeAndAck) (r : Reader) (pver : Z)
(m : RevokeAndAck) (r' : Reader) :
wf_RevokeAndAck c -> Decode c r pver = (None, m, r') ->
(133 <= length r)%nat /\
exists k,
  btcec.ParsePubKey (slice r 68 33) = inr k /\
  m = decoded (slice r 0 32) (slice r 32 4) (slice r 36 32) k
        (slice r 101 32) /\
  r' = skipn 133 r.
Proof.
intros Hc H.
destruct (Nat.lt_ge_cases (length r) 133) as [Hlt|Hge].
- destruct (Decode_short_cases c r pver Hc Hlt) as (e & c' & r0 & E & _).
  rewrite E in H. discriminate H.
- split; [exact Hge|].
  rewrite (Decode_at_offsets c r pver Hc Hge) in H.
  destruct (btcec.ParsePubKey (slice r 68 33)) as [err|k];
    [discriminate H|].
  exists k. inversion H; subst. repeat split.
Qed.

(** The payload of a message does not depend on what the writer holds. *)
Lemma Encode_append (c : RevokeAndAck) (w : Writer) (pver : Z)
(payload : list byte) :
Encode c [] pver = (None, payload) ->
Encode c w pver = (None, w ++ payload).
Proof.
intros H.
destruct (NextRevocationKey c) as [k|] eqn:Hk.
- rewrite (Encode_fields c k [] pver Hk) in H.
  rewrite (Encode_fields c k w pver Hk).
  inversion H; subst. cbn [app]. rewrite <- !app_assoc. reflexivity.
- destruct (Encode_nil_key c [] pver Hk) as (e & w' & E).
  rewrite E in H. discriminate H.
Qed.


(** The sample payload decodes to the sample message. *)
Lemma Decode_payload0 (c : RevokeAndAck) :
wf_RevokeAndAck c ->
Decode c samples.payload0 0 = (None, samples.msg0, []).
Proof.
intros Hc.
rewrite Decode_at_offsets by (try exact Hc; vm_compute; lia).
replace (slice samples.payload0 68 33) with samples.G_bytes
  by (vm_compute; reflexivity).
rewrite ParsePubKey_G. vm_compute. reflexivity.
Qed.

Lemma WellFormed_G : btcec.WellFormed samples.G.
Proof. exists samples.G_bytes. exact ParsePubKey_G. Qed.

End MoreCodecFacts.

(* ================================================================== *)
(** * Further lemmas on the dispatcher *)

Section MoreDispatchFacts.

Context {W : Type} (ids : uwire) (h : handlers W).


(** The three ways an iteration goes, when [from] has its 16 bytes: the
  frame is too short; or it is printed or unknown, and no handler runs; or
  its id has a handler, which is called with the sender and the payload of
  this very frame. *)
Lemma iteration_cases (newdata from : list byte) (w : W) :
length from = 16%nat ->
((length newdata < 17)%nat /\
 OmniHandler_iteration ids h newdata from w
 = ([Printf "got too short message" []], Returned (from, w)))
\/
((17 <= length newdata)%nat /\
 (nth 16 newdata x00 = MSGID_TEXTCHAT ids \/
  ~ In (nth 16 newdata x00) (handled_ids ids)) /\
 exists line,
   is_printf line = true /\
   OmniHandler_iteration ids h newdata from w
   = ([line], Returned (firstn 16 newdata, w)))
\/
((17 <= length newdata)%nat /\
 nth 16 newdata x00 <> MSGID_TEXTCHAT ids /\
 In (nth 16 newdata x00) (handled_ids ids) /\
 exists line e w',
   is_printf line = true /\ is_call e = true /\
   sender_of e = Some (firstn 16 newdata) /\
   (payload_of e = Some (skipn 17 newdata) \/
    e = Call_PubReqHandler (firstn 16 newdata)) /\
   OmniHandler_iteration ids h newdata from w
   = ([line; e], Returned (firstn 16 newdata, w'))).
Proof.
intros Hfrom.
destruct (Nat.lt_ge_cases (length newdata) 17) as [Hlt|Hge].
{ left. split; [exact Hlt|].
  unfold OmniHandler_iteration.
  replace (length newdata <? 17)%nat with true
    by (symmetry; apply Nat.ltb_lt; exact Hlt).
  reflexivity. }
right.
assert (Hpeer : length (firstn 16 newdata) = 16%nat)
  by (rewrite length_firstn; lia).
pose proof (iteration_long ids h (firstn 16 newdata) (nth 16 newdata x00)
              (skipn 17 newdata) from w Hpeer) as Hit.
rewrite <- (frame_split newdata Hge) in Hit. rewrite Hit. clear Hit.
cbv zeta. rewrite (copy_from from _ Hfrom Hpeer).
set (peer := firstn 16 newdata). set (msgid := nth 16 newdata x00).
set (payload := skipn 17 newdata).
unfold handled_ids. cbn [In].
destruct (Byte.eqb msgid (MSGID_TEXTCHAT ids)) eqn:E1.
{ left. split; [exact Hge|]. split; [left; apply eqb_eq; exact E1|].
  eexists. split; [|reflexivity]. reflexivity. }
apply Byte.eqb_false in E1.
destruct (Byte.eqb msgid (MSGID_PUBREQ ids)) eqn:E2;
  [|destruct (Byte.eqb msgid (MSGID_PUBRESP ids)) eqn:E3;
    [|destruct (Byte.eqb msgid (MSGID_MULTIDESC ids)) eqn:E4;
      [|destruct (Byte.eqb msgid (MSGID_MULTIACK ids)) eqn:E5;
        [|destruct (Byte.eqb msgid (MSGID_CLOSEREQ ids)) eqn:E6;
          [|destruct (Byte.eqb msgid (MSGID_CLOSERESP ids)) eqn:E7]]]]];
  repeat match goal with
         | E : Byte.eqb _ _ = true |- _ => apply eqb_eq in E
         | E : Byte.eqb _ _ = false |- _ => apply Byte.eqb_false in E
         end.
7: { left. split; [exact Hge|]. split; [right; intuition congruence|].
     eexists. split; [|reflexivity]. reflexivity. }
all: right; split; [exact Hge|]; split; [exact E1|];
  (split; [intuition congruence|]);
  eexists; eexists; eexists;
  (split; [|split; [|split; [|split; [|reflexivity]]]]);
  try reflexivity; auto.
Qed.


(** Unfolding the loop at its first frame. *)
Lemma loop_cons (f : list byte) (rest : list (list byte))
(from from' : list byte) (w w' : W) (out : list event) :
OmniHandler_iteration ids h f from w = (out, Returned (from', w')) ->
OmniHandler_loop ids h (f :: rest) from w
= (out ++ fst (fst (OmniHandler_loop ids h rest from' w')),
   snd (fst (OmniHandler_loop ids h rest from' w')),
   snd (OmniHandler_loop ids h rest from' w')).
Proof.
intros E. cbn [OmniHandler_loop]. rewrite E.
destruct (OmniHandler_loop ids h rest from' w') as [[out' w''] st].
reflexivity.
Qed.

(** One line of output per frame, and at most one call per frame. *)
Lemma loop_counts (frames : list (list byte)) (from : list byte) (w : W) :
length from = 16%nat ->
length (filter is_printf (fst (fst (OmniHandler_loop ids h frames from w))))
= length frames /\
(length (filter is_call (fst (fst (OmniHandler_loop ids h frames from w))))
 <= length frames)%nat.
Proof.
revert from w. induction frames as [|f rest IH]; intros from w Hfrom.
- cbn. lia.
- destruct (iteration_cases f from w Hfrom)
    as [[Hlen E]|[(Hlen & _ & line & Hl & E)
                 |(Hlen & _ & _ & line & e & w' & Hl & He & _ & _ & E)]];
    rewrite (loop_cons _ _ _ _ _ _ _ E); cbn [fst snd];
    rewrite !filter_app, !length_app.
  + destruct (IH from w Hfrom) as [IH1 IH2].
    cbn [filter is_printf is_call app length]. lia.
  + assert (Hp : length (firstn 16 f) = 16%nat)
      by (rewrite length_firstn; lia).
    destruct (IH (firstn 16 f) w Hp) as [IH1 IH2].
    destruct line; try discriminate Hl.
    cbn [filter is_printf is_call app length]. lia.
  + assert (Hp : length (firstn 16 f) = 16%nat)
      by (rewrite length_firstn; lia).
    destruct (IH (firstn 16 f) w' Hp) as [IH1 IH2].
    destruct line; try discriminate Hl.
    destruct e; try discriminate He; cbn [filter is_printf is_call app length];
      lia.
Qed.

(** Every call of a run is for a frame of the run: its sender is the first 16
  bytes of that frame and its payload the bytes from offset 17 on. *)
Lemma loop_calls (frames : list (list byte)) (from : list byte) (w : W)
(e : event) :
length from = 16%nat ->
In e (fst (fst (OmniHandler_loop ids h frames from w))) ->
is_call e = true ->
exists f,
  In f frames /\ (17 <= length f)%nat /\
  sender_of e = Some (firstn 16 f) /\
  (payload_of e = Some (skipn 17 f) \/
   e = Call_PubReqHandler (firstn 16 f)).
Proof.
revert from w. induction frames as [|f rest IH]; intros from w Hfrom Hin Hcall.
- destruct Hin.
- assert (Hrest : forall from' w', length from' = 16%nat ->
            In e (fst (fst (OmniHandler_loop ids h rest from' w'))) ->
            exists f0, In f0 (f :: rest) /\ (17 <= length f0)%nat /\
              sender_of e = Some (firstn 16 f0) /\
              (payload_of e = Some (skipn 17 f0) \/
               e = Call_PubReqHandler (firstn 16 f0))).
  { intros from' w' Hf' Hin'.
    destruct (IH from' w' Hf' Hin' Hcall) as (f0 & H0 & Hrest).
    exists f0. split; [right; exact H0|exact Hrest]. }
  destruct (iteration_cases f from w Hfrom)
    as [[Hlen E]|[(Hlen & _ & line & Hl & E)
                 |(Hlen & _ & _ & line & e0 & w' & Hl & He & Hs & Hp & E)]];
    rewrite (loop_cons _ _ _ _ _ _ _ E) in Hin; cbn [fst snd] in Hin;
    apply in_app_or in Hin; destruct Hin as [Hin|Hin].
  + destruct Hin as [<-|[]]. discriminate Hcall.
  + eapply Hrest; eassumption.
  + destruct Hin as [<-|[]]. destruct line; discriminate.
  + eapply Hrest; [|eassumption]. rewrite length_firstn; lia.
  + destruct Hin as [<-|[<-|[]]].
    * destruct line; discriminate.
    * exists f. split; [left; reflexivity|]. tauto.
  + eapply Hrest; [|eassumption]. rewrite length_firstn; lia.
Qed.

(** Frames that are too short, text, or of an id without a handler leave the
  state of the process as it is. *)
Lemma loop_quiet (frames : list (list byte)) (from : list byte) (w : W) :
length from = 16%nat ->
(forall f, In f frames ->
   (length f < 17)%nat \/ nth 16 f x00 = MSGID_TEXTCHAT ids \/
   ~ In (nth 16 f x00) (handled_ids ids)) ->
snd (fst (OmniHandler_loop ids h frames from w)) = w /\
filter is_call (fst (fst (OmniHandler_loop ids h frames from w))) = [].
Proof.
revert from w. induction frames as [|f rest IH]; intros from w Hfrom Hq.
- split; reflexivity.
- assert (Hq' : forall f0, In f0 rest ->
            (length f0 < 17)%nat \/ nth 16 f0 x00 = MSGID_TEXTCHAT ids \/
            ~ In (nth 16 f0 x00) (handled_ids ids))
    by (intros f0 H0; apply Hq; right; exact H0).
  destruct (iteration_cases f from w Hfrom)
    as [[Hlen E]|[(Hlen & _ & line & Hl & E)
                 |(Hlen & Hnt & Hh & _)]].
  + rewrite (loop_cons _ _ _ _ _ _ _ E). cbn [fst snd].
    rewrite filter_app. exact (IH from w Hfrom Hq').
  + rewrite (loop_cons _ _ _ _ _ _ _ E). cbn [fst snd].
    rewrite filter_app.
    destruct line; try discriminate Hl. cbn [filter is_call app].
    apply IH; [rewrite length_firstn; lia|exact Hq'].
  + exfalso. destruct (Hq f (or_introl eq_refl)) as [H|[H|H]];
      [lia|contradiction|contradiction].
Qed.

End MoreDispatchFacts.

(* ================================================================== *)
(** * Further lemmas on BreakChannel and LNDCReceiver *)

Section MoreMainFacts.

(** The search stops at the first channel of the peer. *)
Lemma find_chan_first (g : globals) (idx : Z) (pre post : list Qchan)
(m : Qchan) (opBytes : list byte) :
(forall x, In x pre -> PeerIdx x <> idx) -> PeerIdx m = idx ->
find_chan g idx (pre ++ m :: post) opBytes
= ([channel_line m], OutPointToBytes g (Op m)).
Proof.
intros Hpre Hm. induction pre as [|x pre IH]; cbn [app find_chan].
- replace (PeerIdx m =? idx) with true
    by (symmetry; apply Z.eqb_eq; exact Hm).
  reflexivity.
- replace (PeerIdx x =? idx) with false
    by (symmetry; apply Z.eqb_neq; apply Hpre; left; reflexivity).
  apply IH. intros y Hy. apply Hpre. right. exact Hy.
Qed.

(** Either no channel belongs to the peer, or there is a first one. *)
Lemma multis_cases (idx : Z) (multis : list Qchan) :
(forall m, In m multis -> PeerIdx m <> idx) \/
exists pre m post,
  multis = pre ++ m :: post /\
  (forall x, In x pre -> PeerIdx x <> idx) /\ PeerIdx m = idx.
Proof.
induction multis as [|x rest IH].
- left. intros m [].
- destruct (Z.eq_dec (PeerIdx x) idx) as [Heq|Hne].
  + right. exists [], x, rest. split; [reflexivity|].
    split; [intros y []|exact Heq].
  + destruct IH as [Hno|(pre & m & post & -> & Hpre & Hm)].
    * left. intros m [<-|Hin]; [exact Hne|apply Hno; exact Hin].
    * right. exists (x :: pre), m, post. split; [reflexivity|].
      split; [|exact Hm].
      intros y [<-|Hy]; [exact Hne|apply Hpre; exact Hy].
Qed.

(** How the receive loop ends: it returns only after a read error, with the
  answer of [Close] and the error line last; it is blocked only when no
  read fails. *)
Lemma LNDCReceiver_loop_end (reads : list (error + list byte))
(close : option error) (id : list byte) :
match LNDCReceiver_loop reads close id with
| inl (out, res) =>
    res = Returned close /\
    exists err pre,
      In (inl err) reads /\
      out = pre ++ [Printf "read error with %x: %s\n"
                      [ArgBytes id; ArgError err]]
| inr out => forall err, ~ In (inl err) reads
end.
Proof.
induction reads as [|[err|data] rest IH]; cbn [LNDCReceiver_loop].
- intros err [].
- split; [reflexivity|]. exists err, []. split; [left|]; reflexivity.
- destruct (LNDCReceiver_loop rest close id) as [[out' res]|out'].
  + destruct IH as (-> & err & pre & Hin & ->).
    split; [reflexivity|]. exists err. eexists.
    split; [right; exact Hin|]. rewrite app_assoc. reflexivity.
  + intros err [H|H]; [discriminate H|exact (IH err H)].
Qed.

(** Every frame the receiver sends is a read behind [id]. *)
Lemma LNDCReceiver_sent_frames (g : globals) (l : Conn) (id f : list byte) :
In f (sent (events_of (LNDCReceiver g l id))) ->
exists data, In (inr data) (Read l) /\ f = id ++ firstn read_buffer data.
Proof.
unfold LNDCReceiver.
destruct (RemoteCon g) as [rc|]; [|intros []].
destruct (NewPeer g (RemotePub rc)) as [err|known]; [intros []|].
rewrite LNDCReceiver_loop_sent. intros Hin.
apply in_map_iff in Hin. destruct Hin as (data & <- & Hd).
exists data. split; [|reflexivity].
clear -Hd. induction (Read l) as [|[e|d] rest IH]; cbn [delivered] in Hd.
- destruct Hd.
- destruct Hd.
- destruct Hd as [<-|Hd]; [left; reflexivity|right; exact (IH Hd)].
Qed.

Lemma read_buffer_Z : Z.of_nat read_buffer = 65535.
Proof. unfold read_buffer. apply Z2Nat.id. lia. Qed.

End MoreMainFacts.


(* ================================================================== *)
(** * Further properties of RevokeAndAck *)

(** X1.  Whatever the writer holds, [Encode] of a message with a key appends
    to it exactly as many bytes as [MaxPayloadLength] announces. *)
Theorem Encode_writes_MaxPayloadLength (c : RevokeAndAck)
  (k : btcec.PublicKey) (w : Writer) (pver : Z) :
  wf_RevokeAndAck c -> NextRevocationKey c = Some k ->
  exists payload,
    Encode c w pver = (None, w ++ payload) /\
    Z.of_nat (length payload) = MaxPayloadLength c pver.
Proof.
  intros ((Hh & _) & Hr & Hn) Hk.
  rewrite (Encode_fields c k w pver Hk).
  exists (copy (zeroes 32) (wire.Hash (ChannelPoint c))
            ++ BigEndian_PutUint32 (wire.Index (ChannelPoint c))
            ++ Revocation c
            ++ copy (zeroes 33) (btcec.SerializeCompressed k)
            ++ NextRevocationHash c).
  split.
  - rewrite <- !app_assoc. reflexivity.
  - rewrite !length_app, !length_copy, !length_zeroes, Hr, Hn.
    reflexivity.
Qed.

Lemma Encode_writes_MaxPayloadLength_witness :
  wf_RevokeAndAck samples.msg0 /\
  NextRevocationKey samples.msg0 = Some samples.G /\
  exists payload,
    Encode samples.msg0 [x01; x02] 0 = (None, [x01; x02] ++ payload) /\
    Z.of_nat (length payload) = MaxPayloadLength samples.msg0 0.
Proof.
  assert (Hm : wf_RevokeAndAck samples.msg0) by (repeat split; cbn; lia).
  assert (Hk : NextRevocationKey samples.msg0 = Some samples.G) by reflexivity.
  split; [exact Hm|]. split; [exact Hk|].
  exact (Encode_writes_MaxPayloadLength samples.msg0 samples.G [x01; x02] 0
           Hm Hk).
Defined.

(** X2.  A successful [Decode] takes exactly the first 133 bytes of the
    stream and leaves the reader at the byte that follows them. *)
Theorem Decode_consumes_133 (c m : RevokeAndAck) (r r' : Reader) (pver : Z) :
  wf_RevokeAndAck c -> Decode c r pver = (None, m, r') ->
  r = firstn 133 r ++ r' /\ length (firstn 133 r) = 133%nat.
Proof.
  intros Hc H.
  destruct (Decode_ok_inv c r pver m r' Hc H) as (Hlen & k & _ & _ & ->).
  split.
  - symmetry. apply firstn_skipn.
  - rewrite length_firstn. lia.
Qed.

Lemma Decode_consumes_133_witness :
  wf_RevokeAndAck NewRevokeAndAck /\
  Decode NewRevokeAndAck samples.payload0 0 = (None, samples.msg0, []) /\
  samples.payload0 = firstn 133 samples.payload0 ++ [] /\
  length (firstn 133 samples.payload0) = 133%nat.
Proof.
  assert (Hc : wf_RevokeAndAck NewRevokeAndAck) by (repeat split; cbn; lia).
  assert (Hd : Decode NewRevokeAndAck samples.payload0 0
               = (None, samples.msg0, []))
    by exact (Decode_payload0 NewRevokeAndAck Hc).
  split; [exact Hc|]. split; [exact Hd|].
  exact (Decode_consumes_133 NewRevokeAndAck samples.msg0 samples.payload0 []
           0 Hc Hd).
Defined.

(** X3.  A successful [Decode] overwrites every field of its receiver: the
    message and the rest of the stream are the same whatever the receiver
    held before, and whatever the protocol version. *)
Theorem Decode_overwrites_receiver (c1 c2 m : RevokeAndAck) (r r' : Reader)
  (pver pver' : Z) :
  wf_RevokeAndAck c1 -> wf_RevokeAndAck c2 ->
  Decode c1 r pver = (None, m, r') ->
  Decode c2 r pver' = (None, m, r').
Proof.
  intros H1 H2 H.
  destruct (Decode_ok_inv c1 r pver m r' H1 H) as (Hlen & k & Hk & -> & ->).
  rewrite (Decode_at_offsets c2 r pver' H2 Hlen), Hk. reflexivity.
Qed.

Lemma Decode_overwrites_receiver_witness :
  wf_RevokeAndAck NewRevokeAndAck /\ wf_RevokeAndAck samples.msg0 /\
  Decode NewRevokeAndAck samples.payload0 0 = (None, samples.msg0, []) /\
  Decode samples.msg0 samples.payload0 1 = (None, samples.msg0, []).
Proof.
  assert (Hc : wf_RevokeAndAck NewRevokeAndAck) by (repeat split; cbn; lia).
  assert (Hm : wf_RevokeAndAck samples.msg0) by (repeat split; cbn; lia).
  assert (Hd : Decode NewRevokeAndAck samples.payload0 0
               = (None, samples.msg0, []))
    by exact (Decode_payload0 NewRevokeAndAck Hc).
  split; [exact Hc|]. split; [exact Hm|]. split; [exact Hd|].
  exact (Decode_overwrites_receiver NewRevokeAndAck samples.msg0 samples.msg0
           samples.payload0 [] 0 1 Hc Hm Hd).
Defined.

(** X4.  A message that [Decode] returns is well typed and carries a key,
    never nil, that is a well-formed point of the curve. *)
Theorem Decode_yields_valid_message (c m : RevokeAndAck) (r r' : Reader)
  (pver : Z) :
  wf_RevokeAndAck c -> Decode c r pver = (None, m, r') ->
  wf_RevokeAndAck m /\
  exists k,
    NextRevocationKey m = Some k /\ btcec.WellFormed k /\
    btcec.IsOnCurve (btcec.X k) (btcec.Y k) = true.
Proof.
  intros Hc H.
  destruct (Decode_ok_inv c r pver m r' Hc H) as (Hlen & k & Hk & -> & _).
  split.
  - repeat split; cbn [decoded ChannelPoint Revocation NextRevocationHash
                       wire.Hash wire.Index];
      try (apply length_slice; lia); apply Uint32_range.
  - exists k. split; [reflexivity|].
    assert (Hwf : btcec.WellFormed k) by (eexists; exact Hk).
    split; [exact Hwf|]. apply WellFormed_on_curve. exact Hwf.
Qed.

Lemma Decode_yields_valid_message_witness :
  wf_RevokeAndAck NewRevokeAndAck /\
  Decode NewRevokeAndAck samples.payload0 0 = (None, samples.msg0, []) /\
  wf_RevokeAndAck samples.msg0 /\
  exists k,
    NextRevocationKey samples.msg0 = Some k /\ btcec.WellFormed k /\
    btcec.IsOnCurve (btcec.X k) (btcec.Y k) = true.
Proof.
  assert (Hc : wf_RevokeAndAck NewRevokeAndAck) by (repeat split; cbn; lia).
  assert (Hd : Decode NewRevokeAndAck samples.payload0 0
               = (None, samples.msg0, []))
    by exact (Decode_payload0 NewRevokeAndAck Hc).
  split; [exact Hc|]. split; [exact Hd|].
  exact (Decode_yields_valid_message NewRevokeAndAck samples.msg0
           samples.payload0 [] 0 Hc Hd).
Defined.

(** X5.  Encoding a message that [Decode] returned writes back the very 133
    bytes it was read from: the encoding of a message is unique. *)
Theorem Encode_after_Decode (c m : RevokeAndAck) (r r' : Reader)
  (pver pver' : Z) :
  wf_RevokeAndAck c -> Decode c r pver = (None, m, r') ->
  Encode m [] pver' = (None, firstn 133 r).
Proof.
  intros Hc H.
  destruct (Decode_ok_inv c r pver m r' Hc H) as (Hlen & k & Hk & -> & _).
  destruct (SerializeCompressed_ParsePubKey _ k Hk) as [Hser Hl].
  rewrite (Encode_fields
             (decoded (slice r 0 32) (slice r 32 4) (slice r 36 32) k
                (slice r 101 32)) k [] pver' eq_refl).
  cbn [decoded ChannelPoint Revocation NextRevocationHash wire.Hash
       wire.Index app].
  rewrite Hser.
  rewrite !copy_full by (apply length_slice; lia).
  rewrite PutUint32_Uint32 by (apply length_slice; lia).
  rewrite payload_slices, <- !app_assoc. reflexivity.
Qed.

Lemma Encode_after_Decode_witness :
  wf_RevokeAndAck NewRevokeAndAck /\
  Decode NewRevokeAndAck samples.payload0 0 = (None, samples.msg0, []) /\
  Encode samples.msg0 [] 1 = (None, firstn 133 samples.payload0).
Proof.
  assert (Hc : wf_RevokeAndAck NewRevokeAndAck) by (repeat split; cbn; lia).
  assert (Hd : Decode NewRevokeAndAck samples.payload0 0
               = (None, samples.msg0, []))
    by exact (Decode_payload0 NewRevokeAndAck Hc).
  split; [exact Hc|]. split; [exact Hd|].
  exact (Encode_after_Decode NewRevokeAndAck samples.msg0 samples.payload0 []
           0 1 Hc Hd).
Defined.





(** X8.  Two messages encoded one after the other into the same writer are
    read back, in order, by two calls of [Decode] on the same reader, the
    second into the receiver the first has filled. *)
Theorem Decode_stream_of_two (m1 m2 c : RevokeAndAck)
  (k1 k2 : btcec.PublicKey) (pver : Z) :
  wf_RevokeAndAck m1 -> wf_RevokeAndAck m2 -> wf_RevokeAndAck c ->
  NextRevocationKey m1 = Some k1 -> btcec.WellFormed k1 ->
  NextRevocationKey m2 = Some k2 -> btcec.WellFormed k2 ->
  exists p1 p2,
    Encode m1 [] pver = (None, p1) /\
    Encode m2 p1 pver = (None, p1 ++ p2) /\
    Decode c (p1 ++ p2) pver = (None, m1, p2) /\
    Decode m1 p2 pver = (None, m2, []).
Proof.
  intros H1 H2 Hc Hk1 Hw1 Hk2 Hw2.
  destruct (Decode_Encode_gen m2 m1 k2 [] pver pver H2 H1 Hk2 Hw2)
    as (p2 & He2 & _ & Hd2).
  destruct (Decode_Encode_gen m1 c k1 p2 pver pver H1 Hc Hk1 Hw1)
    as (p1 & He1 & _ & Hd1).
  exists p1, p2. rewrite app_nil_r in Hd2.
  repeat split; try assumption.
  apply Encode_append. exact He2.
Qed.

Lemma Decode_stream_of_two_witness :
  wf_RevokeAndAck samples.msg0 /\ wf_RevokeAndAck samples.msg0 /\
  wf_RevokeAndAck NewRevokeAndAck /\
  NextRevocationKey samples.msg0 = Some samples.G /\
  btcec.WellFormed samples.G /\
  NextRevocationKey samples.msg0 = Some samples.G /\
  btcec.WellFormed samples.G /\
  exists p1 p2,
    Encode samples.msg0 [] 0 = (None, p1) /\
    Encode samples.msg0 p1 0 = (None, p1 ++ p2) /\
    Decode NewRevokeAndAck (p1 ++ p2) 0 = (None, samples.msg0, p2) /\
    Decode samples.msg0 p2 0 = (None, samples.msg0, []).
Proof.
  assert (Hm : wf_RevokeAndAck samples.msg0) by (repeat split; cbn; lia).
  assert (Hc : wf_RevokeAndAck NewRevokeAndAck) by (repeat split; cbn; lia).
  assert (Hk : NextRevocationKey samples.msg0 = Some samples.G) by reflexivity.
  split; [exact Hm|]. split; [exact Hm|]. split; [exact Hc|].
  split; [exact Hk|]. split; [exact WellFormed_G|].
  split; [exact Hk|]. split; [exact WellFormed_G|].
  exact (Decode_stream_of_two samples.msg0 samples.msg0 NewRevokeAndAck
           samples.G samples.G 0 Hm Hm Hc Hk WellFormed_G Hk WellFormed_G).
Defined.

(* ================================================================== *)
(** * Further properties of the dispatcher *)


(** X10.  [OmniHandler] prints exactly one line for each frame it receives
    and calls at most one handler for each. *)
Theorem OmniHandler_one_line_per_frame (W : Type) (ids : uwire)
  (h : handlers W) (frames : list (list byte)) (w : W) :
  length (filter is_printf (fst (fst (OmniHandler ids h frames w))))
  = length frames /\
  (length (filter is_call (fst (fst (OmniHandler ids h frames w))))
   <= length frames)%nat.
Proof.
  unfold OmniHandler. apply loop_counts. apply length_zeroes.
Qed.

(** X11.  Every handler call [OmniHandler] makes is for a frame it received,
    of at least 17 bytes: the sender it passes is the first 16 bytes of that
    frame, never those of an earlier one, and the payload it passes is the
    bytes of that frame from offset 17 on. *)
Theorem OmniHandler_calls_come_from_frames (W : Type) (ids : uwire)
  (h : handlers W) (frames : list (list byte)) (w : W) (e : event) :
  In e (fst (fst (OmniHandler ids h frames w))) -> is_call e = true ->
  exists f,
    In f frames /\ (17 <= length f)%nat /\
    sender_of e = Some (firstn 16 f) /\
    (payload_of e = Some (skipn 17 f) \/
     e = Call_PubReqHandler (firstn 16 f)).
Proof.
  unfold OmniHandler. apply loop_calls. apply length_zeroes.
Qed.

Lemma OmniHandler_calls_come_from_frames_witness :
  In (Call_PubRespHandler samples.peer0 [xaa; xbb])
    (fst (fst (OmniHandler samples.ids0 samples.counting
                 [ [x31; xaa]; samples.peer0 ++ [x31; xaa; xbb] ] 0%nat))) /\
  is_call (Call_PubRespHandler samples.peer0 [xaa; xbb]) = true /\
  exists f,
    In f [ [x31; xaa]; samples.peer0 ++ [x31; xaa; xbb] ] /\
    (17 <= length f)%nat /\
    sender_of (Call_PubRespHandler samples.peer0 [xaa; xbb])
    = Some (firstn 16 f) /\
    (payload_of (Call_PubRespHandler samples.peer0 [xaa; xbb])
     = Some (skipn 17 f) \/
     Call_PubRespHandler samples.peer0 [xaa; xbb]
     = Call_PubReqHandler (firstn 16 f)).
Proof.
  assert (Hin : In (Call_PubRespHandler samples.peer0 [xaa; xbb])
                  (fst (fst (OmniHandler samples.ids0 samples.counting
                     [ [x31; xaa]; samples.peer0 ++ [x31; xaa; xbb] ] 0%nat))))
    by (vm_compute; tauto).
  assert (Hc : is_call (Call_PubRespHandler samples.peer0 [xaa; xbb]) = true)
    by reflexivity.
  split; [exact Hin|]. split; [exact Hc|].
  exact (OmniHandler_calls_come_from_frames nat samples.ids0 samples.counting
           _ 0%nat _ Hin Hc).
Defined.

(** X12.  Frames that are too short, text messages and frames whose id has
    no handler leave the state of the process as it was, however many of them
    arrive: only a handler changes it. *)
Theorem OmniHandler_quiet_frames (W : Type) (ids : uwire) (h : handlers W)
  (frames : list (list byte)) (w : W) :
  (forall f, In f frames ->
     (length f < 17)%nat \/ nth 16 f x00 = MSGID_TEXTCHAT ids \/
     ~ In (nth 16 f x00) (handled_ids ids)) ->
  snd (fst (OmniHandler ids h frames w)) = w /\
  filter is_call (fst (fst (OmniHandler ids h frames w))) = [].
Proof.
  intros Hq. unfold OmniHandler. apply loop_quiet; [apply length_zeroes|].
  exact Hq.
Qed.

Lemma OmniHandler_quiet_frames_witness :
  (forall f, In f samples.quiet_frames ->
     (length f < 17)%nat \/ nth 16 f x00 = MSGID_TEXTCHAT samples.ids0 \/
     ~ In (nth 16 f x00) (handled_ids samples.ids0)) /\
  snd (fst (OmniHandler samples.ids0 samples.counting samples.quiet_frames
              7%nat)) = 7%nat /\
  filter is_call
    (fst (fst (OmniHandler samples.ids0 samples.counting samples.quiet_frames
                 7%nat))) = [].
Proof.
  assert (Hq : forall f, In f samples.quiet_frames ->
     (length f < 17)%nat \/ nth 16 f x00 = MSGID_TEXTCHAT samples.ids0 \/
     ~ In (nth 16 f x00) (handled_ids samples.ids0)).
  { intros f [<-|[<-|[<-|[]]]].
    - left. vm_compute. lia.
    - right. left. reflexivity.
    - right. right. vm_compute. intuition discriminate. }
  split; [exact Hq|].
  exact (OmniHandler_quiet_frames nat samples.ids0 samples.counting
           samples.quiet_frames 7%nat Hq).
Defined.

(** X13.  Every frame [LNDCReceiver] puts on the channel starts with the 16
    bytes of the connection id and holds between 16 and 16 + 65535 bytes. *)
Theorem LNDCReceiver_frame_bounds (g : globals) (l : Conn)
  (id f : list byte) :
  length id = 16%nat ->
  In f (sent (events_of (LNDCReceiver g l id))) ->
  firstn 16 f = id /\ 16 <= Z.of_nat (length f) <= 16 + 65535.
Proof.
  intros Hid Hin.
  destruct (LNDCReceiver_sent_frames g l id f Hin) as (data & _ & ->).
  split.
  - rewrite <- Hid. apply firstn_length_app.
  - rewrite length_app, length_firstn, Hid.
    pose proof read_buffer_Z. lia.
Qed.

Lemma LNDCReceiver_frame_bounds_witness :
  length samples.peer0 = 16%nat /\
  In (samples.peer0 ++ [x30])
    (sent (events_of (LNDCReceiver samples.globals0 samples.conn0
                        samples.peer0))) /\
  firstn 16 (samples.peer0 ++ [x30]) = samples.peer0 /\
  16 <= Z.of_nat (length (samples.peer0 ++ [x30])) <= 16 + 65535.
Proof.
  assert (Hid : length samples.peer0 = 16%nat) by reflexivity.
  assert (Hin : In (samples.peer0 ++ [x30])
                  (sent (events_of (LNDCReceiver samples.globals0
                                      samples.conn0 samples.peer0))))
    by (vm_compute; tauto).
  split; [exact Hid|]. split; [exact Hin|].
  exact (LNDCReceiver_frame_bounds samples.globals0 samples.conn0
           samples.peer0 _ Hid Hin).
Defined.

(** X14.  When connected, [LNDCReceiver] returns in two ways only: with the
    error of [NewPeer], before anything is read or sent; or after a read has
    failed, with the answer of [l.Close()], the line of the read error being
    the last thing it printed. *)
Theorem LNDCReceiver_returns_after_error (g : globals) (l : Conn)
  (id : list byte) (remoteCon : LNDConn) (out : list event)
  (res : outcome (option error)) :
  RemoteCon g = Some remoteCon ->
  LNDCReceiver g l id = inl (out, res) ->
  (exists err,
      NewPeer g (RemotePub remoteCon) = inl err /\
      out = [] /\ res = Returned (Some err))
  \/
  (res = Returned (Close l) /\
   exists err pre,
     In (inl err) (Read l) /\
     out = pre ++ [Printf "read error with %x: %s\n"
                     [ArgBytes id; ArgError err]]).
Proof.
  intros Hrc H. unfold LNDCReceiver in H. rewrite Hrc in H.
  destruct (NewPeer g (RemotePub remoteCon)) as [err|known] eqn:Hnp.
  - left. exists err. inversion H; subst. repeat split.
  - right. pose proof (LNDCReceiver_loop_end (Read l) (Close l) id) as He.
    rewrite H in He. exact He.
Qed.

Lemma LNDCReceiver_returns_after_error_witness :
  RemoteCon samples.globals0 = Some {| RemotePub := samples.G_bytes |} /\
  (exists out,
      LNDCReceiver samples.globals0 samples.conn0 samples.peer0
      = inl (out, Returned None) /\
      ((exists err,
           NewPeer samples.globals0
             (RemotePub {| RemotePub := samples.G_bytes |}) = inl err /\
           out = [] /\ Returned None = Returned (Some err))
       \/
       (Returned None = Returned (Close samples.conn0) /\
        exists err pre,
          In (inl err) (Read samples.conn0) /\
          out = pre ++ [Printf "read error with %x: %s\n"
                          [ArgBytes samples.peer0; ArgError err]]))).
Proof.
  assert (Hrc : RemoteCon samples.globals0
                = Some {| RemotePub := samples.G_bytes |}) by reflexivity.
  split; [exact Hrc|].
  eexists. split; [vm_compute; reflexivity|].
  refine (LNDCReceiver_returns_after_error samples.globals0 samples.conn0
            samples.peer0 _ _ (Returned None) Hrc _).
  vm_compute. reflexivity.
Defined.

(** X15.  The receiver and the dispatcher together: every handler call made
    for a frame that [LNDCReceiver] sent is given the id of that connection
    as its sender. *)
Theorem handler_calls_carry_connection_id (W : Type) (ids : uwire)
  (h : handlers W) (g : globals) (l : Conn) (id : list byte) (w : W)
  (e : event) :
  length id = 16%nat ->
  In e (fst (fst (OmniHandler ids h
                    (sent (events_of (LNDCReceiver g l id))) w))) ->
  is_call e = true ->
  sender_of e = Some id.
Proof.
  intros Hid Hin Hcall.
  unfold OmniHandler in Hin.
  destruct (loop_calls ids h _ _ w e (length_zeroes 16) Hin Hcall)
    as (f & Hf & _ & -> & _).
  destruct (LNDCReceiver_sent_frames g l id f Hf) as (data & _ & ->).
  rewrite <- Hid, firstn_length_app. reflexivity.
Qed.

Lemma handler_calls_carry_connection_id_witness :
  length samples.peer0 = 16%nat /\
  In (Call_PubRespHandler samples.peer0 [xaa; xbb])
    (fst (fst (OmniHandler samples.ids0 samples.counting
                 (sent (events_of (LNDCReceiver samples.globals0 samples.conn0
                                     samples.peer0))) 0%nat))) /\
  is_call (Call_PubRespHandler samples.peer0 [xaa; xbb]) = true /\
  sender_of (Call_PubRespHandler samples.peer0 [xaa; xbb])
  = Some samples.peer0.
Proof.
  assert (Hid : length samples.peer0 = 16%nat) by reflexivity.
  assert (Hin : In (Call_PubRespHandler samples.peer0 [xaa; xbb])
    (fst (fst (OmniHandler samples.ids0 samples.counting
                 (sent (events_of (LNDCReceiver samples.globals0 samples.conn0
                                     samples.peer0))) 0%nat))))
    by (vm_compute; tauto).
  assert (Hc : is_call (Call_PubRespHandler samples.peer0 [xaa; xbb]) = true)
    by reflexivity.
  split; [exact Hid|]. split; [exact Hin|]. split; [exact Hc|].
  exact (handler_calls_carry_connection_id nat samples.ids0 samples.counting
           samples.globals0 samples.conn0 samples.peer0 0%nat _ Hid Hin Hc).
Defined.

(* ================================================================== *)
(** * Further properties of BreakChannel and the push commands *)



(** X17.  [BreakChannel] returns nil only when the store holds a channel of
    the connected peer: then it has printed the line of that channel and
    nothing else. *)
Theorem BreakChannel_nil_needs_channel (g : globals) (args : list string)
  (out : list event) :
  BreakChannel g args = (out, Returned None) ->
  exists remoteCon currentPeerIdx multis m,
    RemoteCon g = Some remoteCon /\
    GetPeerIdx g (RemotePub remoteCon) = inr currentPeerIdx /\
    GetAllQchans g = inr multis /\
    In m multis /\ PeerIdx m = currentPeerIdx /\
    OutPointToBytes g (Op m) <> [] /\
    out = [channel_line m].
Proof.
  unfold BreakChannel. intros H.
  destruct (RemoteCon g) as [rc|]; [|discriminate H].
  destruct (GetPeerIdx g (RemotePub rc)) as [e|idx] eqn:Hidx;
    [discriminate H|].
  destruct (GetAllQchans g) as [e|multis] eqn:Hall; [discriminate H|].
  destruct (multis_cases idx multis)
    as [Hno|(pre & m & post & -> & Hpre & Hm)].
  - rewrite (find_chan_none g idx multis [] Hno) in H. discriminate H.
  - rewrite (find_chan_first g idx pre post m [] Hpre Hm) in H.
    destruct (OutPointToBytes g (Op m)) as [|b bs] eqn:Hop;
      [discriminate H|].
    exists rc, idx, (pre ++ m :: post), m.
    repeat split; try reflexivity; try assumption.
    + apply in_elt.
    + rewrite Hop. discriminate.
    + inversion H. reflexivity.
Qed.

Lemma BreakChannel_nil_needs_channel_witness :
  BreakChannel samples.globals1 []
  = ([channel_line samples.chan1], Returned None) /\
  exists remoteCon currentPeerIdx multis m,
    RemoteCon samples.globals1 = Some remoteCon /\
    GetPeerIdx samples.globals1 (RemotePub remoteCon) = inr currentPeerIdx /\
    GetAllQchans samples.globals1 = inr multis /\
    In m multis /\ PeerIdx m = currentPeerIdx /\
    OutPointToBytes samples.globals1 (Op m) <> [] /\
    [channel_line samples.chan1] = [channel_line m].
Proof.
  assert (H : BreakChannel samples.globals1 []
              = ([channel_line samples.chan1], Returned None))
    by reflexivity.
  split; [exact H|].
  exact (BreakChannel_nil_needs_channel samples.globals1 [] _ H).
Defined.

(** X18.  An error that [BreakChannel] returns is the error of one of its two
    queries, handed on as it is, and nothing has been printed: the error of
    [GetPeerIdx], or that of [GetAllQchans] when the peer was found. *)
Theorem BreakChannel_error_from_query (g : globals) (args : list string)
  (out : list event) (err : error) :
  BreakChannel g args = (out, Returned (Some err)) ->
  out = [] /\
  exists remoteCon,
    RemoteCon g = Some remoteCon /\
    (GetPeerIdx g (RemotePub remoteCon) = inl err \/
     exists currentPeerIdx,
       GetPeerIdx g (RemotePub remoteCon) = inr currentPeerIdx /\
       GetAllQchans g = inl err).
Proof.
  unfold BreakChannel. intros H.
  destruct (RemoteCon g) as [rc|]; [|discriminate H].
  destruct (GetPeerIdx g (RemotePub rc)) as [e|idx] eqn:Hidx.
  - inversion H; subst. split; [reflexivity|].
    exists rc. split; [reflexivity|]. left. exact Hidx.
  - destruct (GetAllQchans g) as [e|multis] eqn:Hall.
    + inversion H; subst. split; [reflexivity|].
      exists rc. split; [reflexivity|]. right. exists idx.
      split; [exact Hidx|first [exact Hall|reflexivity]].
    + destruct (find_chan g idx multis []) as [o opBytes].
      destruct (index_set opBytes 0 x00); discriminate H.
Qed.

Lemma BreakChannel_error_from_query_witness :
  BreakChannel samples.globals_unknown_peer []
  = ([], Returned (Some (ErrOther "peer not found"))) /\
  [] = @nil event /\
  exists remoteCon,
    RemoteCon samples.globals_unknown_peer = Some remoteCon /\
    (GetPeerIdx samples.globals_unknown_peer (RemotePub remoteCon)
     = inl (ErrOther "peer not found") \/
     exists currentPeerIdx,
       GetPeerIdx samples.globals_unknown_peer (RemotePub remoteCon)
       = inr currentPeerIdx /\
       GetAllQchans samples.globals_unknown_peer
       = inl (ErrOther "peer not found")).
Proof.
  assert (H : BreakChannel samples.globals_unknown_peer []
              = ([], Returned (Some (ErrOther "peer not found"))))
    by reflexivity.
  split; [exact H|].
  exact (BreakChannel_error_from_query samples.globals_unknown_peer [] _ _ H).
Defined.

(** X19.  Without a connection the push commands return the error "Not
    connected to anyone, can't push" and print nothing, whereas
    [BreakChannel] and [LNDCReceiver], which read [RemoteCon.RemotePub]
    unguarded, panic. *)
Theorem not_connected (g : globals) (args : list string)
  (peerIdx cIdx amt : Z) (l : Conn) (id : list byte) :
  RemoteCon g = None ->
  PushChannel g args
  = Some (ErrOther "Not connected to anyone, can't push\n") /\
  PushSig g peerIdx cIdx amt
  = ([], Some (ErrOther "Not connected to anyone, can't push\n")) /\
  BreakChannel g args
  = ([], Panic "invalid memory address or nil pointer dereference") /\
  LNDCReceiver g l id
  = inl ([], Panic "invalid memory address or nil pointer dereference").
Proof.
  intros H. unfold PushChannel, PushSig, BreakChannel, LNDCReceiver.
  rewrite H. repeat split.
Qed.

Lemma not_connected_witness :
  RemoteCon samples.globals_none = None /\
  PushChannel samples.globals_none []
  = Some (ErrOther "Not connected to anyone, can't push\n") /\
  PushSig samples.globals_none 1 2 3
  = ([], Some (ErrOther "Not connected to anyone, can't push\n")) /\
  BreakChannel samples.globals_none []
  = ([], Panic "invalid memory address or nil pointer dereference") /\
  LNDCReceiver samples.globals_none samples.conn0 samples.peer0
  = inl ([], Panic "invalid memory address or nil pointer dereference").
Proof.
  assert (H : RemoteCon samples.globals_none = None) by reflexivity.
  split; [exact H|].
  exact (not_connected samples.globals_none [] 1 2 3 samples.conn0
           samples.peer0 H).
Defined.
